(** * Manual Like Exchange API (main.py): a shallow embedding

    The program is a FastAPI service over two SQLite tables, [users] and
    [requests].  Every endpoint is a short sequence of SQL statements issued
    through [db_execute]; each statement commits on its own, and an
    [HTTPException] raised between two statements does not undo the first.

    The embedding follows that shape:
    - a table is the list of its rows in rowid order;
    - [db_execute] with a given query is one primitive of a state-and-error
      monad [M] over the database, so that a raise after a write keeps the
      write, as in the program;
    - an endpoint is the monadic program that issues the same statements in
      the same order, preceded by the checks FastAPI runs on the request body
      (the pydantic [Field(ge=1, le=100)] on [points]).

    main.py holds the schemas and endpoints more than once, with the same
    statements each time; the embedding follows the first occurrence of each
    endpoint.

    Numbers.  A Python [int] is a [Z].  sqlite3 refuses to bind an [int]
    outside the signed 64-bit range (OverflowError, which FastAPI turns into
    a 500), and SQLite answers a 64-bit overflow of [points + ?] with a REAL:
    both are modelled, see [int64], [num] and [sql_add].

    Modelling boundaries.  Calls are sequential (one endpoint runs to its end
    before the next starts).  [datetime.utcnow().isoformat()] is an input of
    the endpoints that read the clock.  URLs are the strings that
    [str(payload.proof_url)] yields.  Strings are byte strings; [upper] is
    [str.upper] on ASCII text ([is_ascii]), where it maps the letters a-z to
    A-Z, and the theorems that speak of the stored region say so. *)

From Stdlib Require Import ZArith List String Ascii Bool Lia Permutation Sorted.
Import ListNotations.
Open Scope string_scope.
Open Scope list_scope.
Open Scope Z_scope.

(** ** Numbers as sqlite3 and SQLite treat them *)

Definition min_int64 : Z := - 2 ^ 63.
Definition max_int64 : Z := 2 ^ 63 - 1.

(** What sqlite3 accepts as a bound parameter and SQLite holds as an
    INTEGER. *)
Definition int64 (z : Z) : bool := (min_int64 <=? z) && (z <=? max_int64).

(** A value of the [points] column: an INTEGER or, once an addition has
    overflowed, a REAL.  The REALs of this column are sums of integers, so
    they are doubles without a fractional part: [Real r] is the double whose
    value is the integer [r]. *)
Inductive num :=
| Int (i : Z)
| Real (r : Z).

Definition value (n : num) : Z :=
  match n with
  | Int i => i
  | Real r => r
  end.

Coercion Int : Z >-> num.

(** The double nearest to a natural number [a] (53 bits of mantissa, ties to
    the even mantissa); far below the largest double, which sums of 64-bit
    integers starting from 0 never approach. *)
Definition round_mantissa (a : Z) : Z :=
  let e := Z.log2 a - 52 in
  if e <=? 0 then a
  else
    let q := a / 2 ^ e in
    let r := a mod 2 ^ e in
    let half := 2 ^ (e - 1) in
    (if r <? half then q
     else if half <? r then q + 1
     else if Z.even q then q else q + 1) * 2 ^ e.

(** The double nearest to an integer: the cast [(double)i] of SQLite, and the
    rounding of the exact sum of two doubles. *)
Definition to_double (z : Z) : Z := Z.sgn z * round_mantissa (Z.abs z).

(** INTEGER affinity of the column: a REAL is stored as an INTEGER when it is
    one strictly between the least and the largest 64-bit integer. *)
Definition affinity (r : Z) : num :=
  if (min_int64 <? r) && (r <? max_int64) then Int r else Real r.

(** [points + ?] as SQLite computes and stores it: on two INTEGERs whose sum
    fits 64 bits, the sum; otherwise the sum of the two operands as
    doubles. *)
Definition sql_add (a : num) (b : Z) : num :=
  match a with
  | Int i =>
      if int64 (i + b) then Int (i + b)
      else affinity (to_double (to_double i + to_double b))
  | Real r => affinity (to_double (r + to_double b))
  end.

(** The addition came out as the exact integer sum. *)
Definition exact_add (a : num) (b : Z) : bool :=
  match a with
  | Int i => int64 (i + b)
  | Real _ => false
  end.

(** ** Rows of the two tables (CREATE TABLE statements of [init_db]) *)

Module User.
Record row := mk {
  id : Z;
  telegram_id : Z;
  username : string;
  points_col : num;
  is_vip : Z;
  created_at : string
}.

(** The number in the [points] column, INTEGER or REAL. *)
Definition points (u : row) : Z := value (points_col u).

Definition add_points (delta : Z) (u : row) : row :=
  mk (id u) (telegram_id u) (username u) (sql_add (points_col u) delta)
     (is_vip u) (created_at u).
End User.

Module Request.
Record row := mk {
  id : Z;
  owner_id : Z;
  uid : string;
  region : string;
  proof_url : string;
  points_requested : Z;
  status : string;
  created_at : string;
  claimed_by : option Z;
  claim_proof_url : option string;
  completed_at : option string
}.

Definition set_claimed (claimer_id : Z) (r : row) : row :=
  mk (id r) (owner_id r) (uid r) (region r) (proof_url r)
     (points_requested r) "claimed" (created_at r) (Some claimer_id)
     (claim_proof_url r) (completed_at r).

Definition set_completed (proof now : string) (r : row) : row :=
  mk (id r) (owner_id r) (uid r) (region r) (proof_url r)
     (points_requested r) "completed" (created_at r) (claimed_by r)
     (Some proof) (Some now).
End Request.

Record db := mkdb {
  users : list User.row;
  requests : list Request.row
}.

(** A database file on which [init_db] has just created the tables. *)
Definition empty_db : db := mkdb [] [].

(** ** Errors and the monad of an endpoint *)

Inductive error :=
| HTTPException (status_code : Z) (detail : string)
| RequestValidationError (field : string)
| IntegrityError (constraint : string)
| OverflowError.

Inductive outcome (A : Type) :=
| Ok (a : A)
| Raise (e : error).
Arguments Ok {A} a.
Arguments Raise {A} e.

Definition M (A : Type) : Type := db -> outcome A * db.

Definition ret {A} (a : A) : M A := fun st => (Ok a, st).

Definition raise {A} (e : error) : M A := fun st => (Raise e, st).

Definition bind {A B} (c : M A) (k : A -> M B) : M B :=
  fun st =>
    match c st with
    | (Ok a, st') => k a st'
    | (Raise e, st') => (Raise e, st')
    end.

Notation "x <- c ;; k" := (bind c (fun x => k))
  (at level 61, c at next level, right associativity).
Notation "c ;;; k" := (bind c (fun _ => k))
  (at level 61, right associativity).

(** ** The SQL statements the endpoints pass to [db_execute] *)

(** Rowid of an inserted row: one more than the largest rowid in the table
    (no row is ever deleted, so AUTOINCREMENT gives the same value). *)
Definition next_id (ids : list Z) : Z := 1 + fold_right Z.max 0 ids.

(** SELECT ... FROM users WHERE telegram_id = ?
    sqlite3 raises OverflowError instead of running the query when the
    bound integer does not fit 64 bits.  Such an integer is the key of no row
    a database holds, so the refusal is written where the query would have
    found nothing. *)
Definition select_users_by_telegram_id (tg : Z) : M (list User.row) :=
  fun st =>
    match filter (fun u => User.telegram_id u =? tg) (users st) with
    | [] => if int64 tg then (Ok [], st) else (Raise OverflowError, st)
    | rows => (Ok rows, st)
    end.

(** INSERT INTO users (telegram_id, username, created_at) VALUES (?, ?, ?);
    [points] and [is_vip] take their DEFAULT 0, and [telegram_id] is UNIQUE. *)
Definition insert_user (tg : Z) (name now : string) : M unit :=
  fun st =>
    if existsb (fun u => User.telegram_id u =? tg) (users st)
    then (Raise (IntegrityError "users.telegram_id"), st)
    else (Ok tt,
          mkdb (users st ++
                  [User.mk (next_id (map User.id (users st))) tg name 0 0 now])
               (requests st)).

(** UPDATE users SET points = points + ? WHERE id = ?
    (and [points - ?] of create_request, with the opposite delta); the delta
    is a stake of 1..100 and the id was read from the database. *)
Definition update_points_by_id (delta uid : Z) : M unit :=
  fun st =>
    (Ok tt,
     mkdb (map (fun u => if User.id u =? uid then User.add_points delta u
                         else u) (users st))
          (requests st)).

(** UPDATE users SET points = points + ? WHERE telegram_id = ?
    The delta comes from the caller: sqlite3 raises OverflowError when it
    does not fit 64 bits (the telegram id was bound by the SELECT before). *)
Definition update_points_by_telegram_id (delta tg : Z) : M unit :=
  fun st =>
    if int64 delta
    then
      (Ok tt,
       mkdb (map (fun u => if User.telegram_id u =? tg
                           then User.add_points delta u else u) (users st))
            (requests st))
    else (Raise OverflowError, st).

(** SELECT ... FROM requests WHERE id = ?
    with the OverflowError of sqlite3 as for [select_users_by_telegram_id]. *)
Definition select_requests_by_id (rid : Z) : M (list Request.row) :=
  fun st =>
    match filter (fun r => Request.id r =? rid) (requests st) with
    | [] => if int64 rid then (Ok [], st) else (Raise OverflowError, st)
    | rows => (Ok rows, st)
    end.

(** INSERT INTO requests (owner_id, uid, region, proof_url, points_requested,
    status, created_at) VALUES (?, ?, ?, ?, ?, ?, ?); the three columns left
    out are NULL. *)
Definition insert_request (owner : Z) (uid region proof : string) (pts : Z)
    (status now : string) : M unit :=
  fun st =>
    (Ok tt,
     mkdb (users st)
          (requests st ++
             [Request.mk (next_id (map Request.id (requests st))) owner uid
                region proof pts status now None None None])).

(** UPDATE requests SET status = ?, claimed_by = ? WHERE id = ?
    (called with status "claimed"). *)
Definition update_request_claimed (claimer_id rid : Z) : M unit :=
  fun st =>
    (Ok tt,
     mkdb (users st)
          (map (fun r => if Request.id r =? rid
                         then Request.set_claimed claimer_id r else r)
               (requests st))).

(** UPDATE requests SET status = ?, claim_proof_url = ?, completed_at = ?
    WHERE id = ?  (called with status "completed"). *)
Definition update_request_completed (proof now : string) (rid : Z) : M unit :=
  fun st =>
    (Ok tt,
     mkdb (users st)
          (map (fun r => if Request.id r =? rid
                         then Request.set_completed proof now r else r)
               (requests st))).

(** ** Python helpers *)

(** [str.upper] on one character of ASCII text. *)
Definition upper_char (c : ascii) : ascii :=
  let n := N_of_ascii c in
  if (97 <=? n)%N && (n <=? 122)%N then ascii_of_N (n - 32) else c.

(** [str.upper] on ASCII text. *)
Fixpoint upper (s : string) : string :=
  match s with
  | EmptyString => EmptyString
  | String c s' => String (upper_char c) (upper s')
  end.

(** Text all of whose characters are below 128. *)
Fixpoint is_ascii (s : string) : bool :=
  match s with
  | EmptyString => true
  | String c s' => (N_of_ascii c <? 128)%N && is_ascii s'
  end.


(** No letter a-z is left. *)
Fixpoint no_small_letter (s : string) : bool :=
  match s with
  | EmptyString => true
  | String c s' =>
      negb ((97 <=? N_of_ascii c)%N && (N_of_ascii c <=? 122)%N) &&
      no_small_letter s'
  end.

(** [payload.username or ""]. *)
Definition or_empty (name : option string) : string :=
  match name with
  | Some s => s
  | None => ""
  end.

(** ** Endpoints *)

(** POST /register *)
Definition register (telegram_id : Z) (username : option string)
    (now : string) : M string :=
  user <- select_users_by_telegram_id telegram_id ;;
  match user with
  | _ :: _ => ret "Already registered"
  | [] =>
      insert_user telegram_id (or_empty username) now ;;;
      ret "Registered"
  end.

(** GET /me/{telegram_id} *)
Definition me (telegram_id : Z) : M User.row :=
  row <- select_users_by_telegram_id telegram_id ;;
  match row with
  | [] => raise (HTTPException 404 "User not found")
  | u :: _ => ret u
  end.

(** The check FastAPI runs on a [CreateRequestIn] body before the handler:
    [points: int = Field(..., ge=1, le=100)]. *)
Definition validate_CreateRequestIn (points : Z) : M unit :=
  if (1 <=? points) && (points <=? 100) then ret tt
  else raise (RequestValidationError "points").

(** POST /request/create *)
Definition create_request (telegram_id : Z) (uid region proof_url : string)
    (payload_points : Z) (now : string) : M string :=
  validate_CreateRequestIn payload_points ;;;
  user <- select_users_by_telegram_id telegram_id ;;
  match user with
  | [] => raise (HTTPException 404 "User not registered")
  | u :: _ =>
      let owner_id := User.id u in
      let points := User.points u in
      if points <? payload_points
      then raise (HTTPException 400 "Not enough points to post request")
      else
        insert_request owner_id uid (upper region) proof_url payload_points
                       "open" now ;;;
        update_points_by_id (- payload_points) owner_id ;;;
        ret "Request created and points staked"
  end.

(** POST /request/claim *)
Definition claim (telegram_id request_id : Z) : M string :=
  req <- select_requests_by_id request_id ;;
  match req with
  | [] => raise (HTTPException 404 "Request not found")
  | r :: _ =>
      let r_id := Request.id r in
      let owner_id := Request.owner_id r in
      if negb (Request.status r =? "open")%string
      then raise (HTTPException 400 "Request not open")
      else
        claimer <- select_users_by_telegram_id telegram_id ;;
        match claimer with
        | [] => raise (HTTPException 404 "Claimer not registered")
        | c :: _ =>
            let claimer_id := User.id c in
            if claimer_id =? owner_id
            then raise (HTTPException 400 "Owner cannot claim own request")
            else
              update_request_claimed claimer_id r_id ;;;
              ret "Request claimed. Confirm with /request/confirm after liking"
        end
  end.

(** [claimer_id != claimed_by], where [claimed_by] may be NULL. *)
Definition differs_from (claimer_id : Z) (claimed_by : option Z) : bool :=
  match claimed_by with
  | Some c => negb (claimer_id =? c)
  | None => true
  end.

(** POST /request/confirm *)
Definition confirm (telegram_id request_id : Z) (claim_proof_url now : string)
    : M string :=
  rows <- select_requests_by_id request_id ;;
  match rows with
  | [] => raise (HTTPException 404 "Request not found")
  | r :: _ =>
      let r_id := Request.id r in
      let claimed_by := Request.claimed_by r in
      let points_requested := Request.points_requested r in
      if negb (Request.status r =? "claimed")%string
      then raise (HTTPException 400 "Request not in claimed state")
      else
        claimer <- select_users_by_telegram_id telegram_id ;;
        match claimer with
        | [] => raise (HTTPException 404 "Claimer not registered")
        | c :: _ =>
            let claimer_id := User.id c in
            if differs_from claimer_id claimed_by
            then raise (HTTPException 403 "Only claimer can confirm")
            else
              update_request_completed claim_proof_url now r_id ;;;
              update_points_by_id points_requested claimer_id ;;;
              ret "Confirmed. Points awarded to claimer"
        end
  end.

(** GET /user/points/{telegram_id}; the outcome is the number in the body of
    the response. *)
Definition get_points (telegram_id : Z) : M Z :=
  row <- select_users_by_telegram_id telegram_id ;;
  match row with
  | [] => raise (HTTPException 404 "User not found")
  | u :: _ => ret (User.points u)
  end.

(** POST /admin/add_points *)
Definition admin_add_points (telegram_id points : Z) (secret : string)
    : M string :=
  if negb (secret =? "CHANGE_THIS_SECRET")%string
  then raise (HTTPException 401 "Unauthorized")
  else
    row <- select_users_by_telegram_id telegram_id ;;
    match row with
    | [] => raise (HTTPException 404 "User not found")
    | _ :: _ =>
        update_points_by_telegram_id points telegram_id ;;;
        ret "Points added successfully"
    end.

(** ** GET /requests/open

    The rows come from
    [SELECT ... FROM requests WHERE status = 'open' ORDER BY created_at DESC].
    SQLite reads the table in rowid order and sorts the rows it keeps on the
    one key of the query, latest first, leaving rows of equal key in the
    order it read them: [sort_desc], an insertion sort.  [created_at] is a
    TEXT column, compared byte by byte. *)

Module ReqOut.
Record t := mk {
  id : Z;
  owner_id : Z;
  uid : string;
  region : string;
  proof_url : string;
  points_requested : Z;
  status : string;
  claimed_by : option Z;
  created_at : string
}.
End ReqOut.

Definition to_ReqOut (r : Request.row) : ReqOut.t :=
  ReqOut.mk (Request.id r) (Request.owner_id r) (Request.uid r)
    (Request.region r) (Request.proof_url r) (Request.points_requested r)
    (Request.status r) (Request.claimed_by r) (Request.created_at r).

Definition is_open (r : Request.row) : bool :=
  (Request.status r =? "open")%string.


(** ORDER BY created_at DESC on rows given in rowid order: each row goes in
    front of the first row that is not later than it. *)
Fixpoint insert_desc (r : Request.row) (l : list Request.row)
    : list Request.row :=
  match l with
  | [] => [r]
  | x :: l' =>
      if (Request.created_at x <=? Request.created_at r)%string
      then r :: l
      else x :: insert_desc r l'
  end.

Definition sort_desc (l : list Request.row) : list Request.row :=
  fold_right insert_desc [] l.

Definition select_open_requests : M (list Request.row) :=
  fun st => (Ok (sort_desc (filter is_open (requests st))), st).

Definition list_open_requests : M (list ReqOut.t) :=
  rows <- select_open_requests ;;
  ret (map to_ReqOut rows).



(** ** Sequences of calls *)

Inductive op :=
| Register (telegram_id : Z) (username : option string) (now : string)
| Me (telegram_id : Z)
| CreateRequest (telegram_id : Z) (uid region proof_url : string)
    (points : Z) (now : string)
| Claim (telegram_id request_id : Z)
| Confirm (telegram_id request_id : Z) (claim_proof_url now : string)
| GetPoints (telegram_id : Z)
| AdminAddPoints (telegram_id points : Z) (secret : string).

(** The database an endpoint leaves behind, whether it returned or raised. *)
Definition exec {A} (c : M A) (st : db) : db := snd (c st).

Definition step (st : db) (o : op) : db :=
  match o with
  | Register tg name now => exec (register tg name now) st
  | Me tg => exec (me tg) st
  | CreateRequest tg uid region proof pts now =>
      exec (create_request tg uid region proof pts now) st
  | Claim tg rid => exec (claim tg rid) st
  | Confirm tg rid proof now => exec (confirm tg rid proof now) st
  | GetPoints tg => exec (get_points tg) st
  | AdminAddPoints tg pts secret => exec (admin_add_points tg pts secret) st
  end.

Definition run (st : db) (ops : list op) : db := fold_left step ops st.

Inductive reachable : db -> Prop :=
| reachable_empty : reachable empty_db
| reachable_step st o : reachable st -> reachable (step st o).

(** ** Observations on a database *)

(** First row of SELECT ... FROM users WHERE telegram_id = ? *)
Definition user_of (st : db) (tg : Z) : option User.row :=
  hd_error (filter (fun u => User.telegram_id u =? tg) (users st)).

(** First row of SELECT ... FROM requests WHERE id = ? *)
Definition request_of (st : db) (rid : Z) : option Request.row :=
  hd_error (filter (fun r => Request.id r =? rid) (requests st)).

Definition balance (st : db) (tg : Z) : option Z :=
  option_map User.points (user_of st tg).


(** The constraints of the schema: both PRIMARY KEYs and the UNIQUE column. *)
Definition wf (st : db) : Prop :=
  NoDup (map User.id (users st)) /\
  NoDup (map User.telegram_id (users st)) /\
  NoDup (map Request.id (requests st)).

Definition valid_status (s : string) : Prop :=
  s = "open" \/ s = "claimed" \/ s = "completed".

(** One call moves a status by at most one state, and only forward. *)
Definition forward_step (s s' : string) : Prop :=
  s' = s \/ (s = "open" /\ s' = "claimed") \/
  (s = "claimed" /\ s' = "completed").

(** Any number of calls: open, then claimed, then completed. *)
Definition forward (s s' : string) : Prop :=
  s' = s \/ (s = "open" /\ (s' = "claimed" \/ s' = "completed")) \/
  (s = "claimed" /\ s' = "completed").

Definition request_ok (r : Request.row) : Prop :=
  valid_status (Request.status r) /\
  1 <= Request.points_requested r <= 100 /\
  (Request.status r = "open" -> Request.claimed_by r = None).

Definition requests_ok (st : db) : Prop := Forall request_ok (requests st).

Definition solvent (st : db) : Prop :=
  Forall (fun u => 0 <= User.points u) (users st).

(** An admin call that goes through (the secret is right, the user exists
    and the delta fits 64 bits) leaves the balance it adjusts at zero or
    above. *)
Definition admin_ok (st : db) (o : op) : bool :=
  match o with
  | AdminAddPoints tg delta secret =>
      negb (secret =? "CHANGE_THIS_SECRET")%string ||
      match user_of st tg with
      | Some u =>
          negb (int64 delta) ||
          (0 <=? User.points (User.add_points delta u))
      | None => true
      end
  | _ => true
  end.

Fixpoint admin_guarded (st : db) (ops : list op) : bool :=
  match ops with
  | [] => true
  | o :: ops' => admin_ok st o && admin_guarded (step st o) ops'
  end.

(** Points held by users, points held by requests not yet completed. *)
Definition sum_balances (st : db) : Z :=
  fold_right Z.add 0 (map User.points (users st)).

Definition escrowed (r : Request.row) : Z :=
  if (Request.status r =? "open")%string ||
     (Request.status r =? "claimed")%string
  then Request.points_requested r else 0.

Definition sum_escrow (st : db) : Z :=
  fold_right Z.add 0 (map escrowed (requests st)).

Definition total_points (st : db) : Z := sum_balances st + sum_escrow st.

(** ** The rows the statements write *)

Definition new_user (st : db) (tg : Z) (name now : string) : User.row :=
  User.mk (next_id (map User.id (users st))) tg name 0 0 now.

Definition new_request (st : db) (owner : Z) (uid region proof : string)
    (pts : Z) (now : string) : Request.row :=
  Request.mk (next_id (map Request.id (requests st))) owner uid (upper region)
    proof pts "open" now None None None.

Definition credit_id (delta uid : Z) (u : User.row) : User.row :=
  if User.id u =? uid then User.add_points delta u else u.

Definition credit_tg (delta tg : Z) (u : User.row) : User.row :=
  if User.telegram_id u =? tg then User.add_points delta u else u.

Definition claim_row (claimer_id rid : Z) (r : Request.row) : Request.row :=
  if Request.id r =? rid then Request.set_claimed claimer_id r else r.

Definition complete_row (proof now : string) (rid : Z) (r : Request.row)
    : Request.row :=
  if Request.id r =? rid then Request.set_completed proof now r else r.

(** An admin call with a delta at or above zero. *)
Definition nonneg_delta (o : op) : Prop :=
  match o with
  | AdminAddPoints _ delta _ => 0 <= delta
  | _ => True
  end.

(** ** Sample runs: the end-to-end scenario and variants *)

Definition secret0 : string := "CHANGE_THIS_SECRET".

Definition scenario : list op :=
  [ Register 1 (Some "A") "2024-01-01T00:00:00";
    AdminAddPoints 1 50 secret0;
    CreateRequest 1 "2476897412" "ind" "https://a/" 30 "2024-01-01T00:00:01";
    Register 2 None "2024-01-01T00:00:02";
    Claim 2 1;
    Confirm 2 1 "https://b/" "2024-01-01T00:00:03" ].

(** The scenario up to and including the claim. *)
Definition scenario_claimed : list op := firstn 5 scenario.

(** The scenario up to and including the creation of the request. *)
Definition scenario_open : list op := firstn 4 scenario.

(** A user whose balance an admin call has pushed past 64 bits. *)
Definition scenario_real_owner : list op :=
  [ Register 1 (Some "A") "2024-01-01T00:00:00";
    AdminAddPoints 1 50 secret0;
    AdminAddPoints 1 max_int64 secret0 ].

(** A claimed request whose claimer holds the largest 64-bit integer. *)
Definition scenario_rich_claimer : list op :=
  [ Register 1 (Some "A") "2024-01-01T00:00:00";
    AdminAddPoints 1 50 secret0;
    CreateRequest 1 "2476897412" "ind" "https://a/" 30 "2024-01-01T00:00:01";
    Register 2 None "2024-01-01T00:00:02";
    AdminAddPoints 2 max_int64 secret0;
    Claim 2 1 ].

(** A registered user, then an admin call with a delta below zero. *)
Definition overdraw : list op :=
  [ Register 1 None "2024-01-01T00:00:00"; AdminAddPoints 1 (-5) secret0 ].

(** Two requests created at the same instant. *)
Definition same_instant : list op :=
  [ Register 1 (Some "A") "2024-01-01T00:00:00";
    AdminAddPoints 1 50 secret0;
    CreateRequest 1 "2476897412" "IND" "https://a/" 10 "2024-01-01T00:00:01";
    CreateRequest 1 "2476897412" "IND" "https://a/" 10 "2024-01-01T00:00:01" ].

(** ** Further observations: outcomes, fixed columns, links between tables *)

(** Whether an endpoint raised. *)
Definition raised {A} (c : M A) (st : db) : bool :=
  match fst (c st) with
  | Ok _ => false
  | Raise _ => true
  end.

Definition failed (st : db) (o : op) : bool :=
  match o with
  | Register tg name now => raised (register tg name now) st
  | Me tg => raised (me tg) st
  | CreateRequest tg uid region proof pts now =>
      raised (create_request tg uid region proof pts now) st
  | Claim tg rid => raised (claim tg rid) st
  | Confirm tg rid proof now => raised (confirm tg rid proof now) st
  | GetPoints tg => raised (get_points tg) st
  | AdminAddPoints tg pts secret => raised (admin_add_points tg pts secret) st
  end.

(** The columns of a user row that no statement of the program assigns after
    the INSERT: everything but [points]. *)
Definition same_identity (u u' : User.row) : Prop :=
  User.id u' = User.id u /\
  User.telegram_id u' = User.telegram_id u /\
  User.username u' = User.username u /\
  User.is_vip u' = User.is_vip u /\
  User.created_at u' = User.created_at u.

(** The columns of a request row that no UPDATE of the program assigns. *)
Definition same_terms (r r' : Request.row) : Prop :=
  Request.id r' = Request.id r /\
  Request.owner_id r' = Request.owner_id r /\
  Request.uid r' = Request.uid r /\
  Request.region r' = Request.region r /\
  Request.proof_url r' = Request.proof_url r /\
  Request.points_requested r' = Request.points_requested r /\
  Request.created_at r' = Request.created_at r.

(** Which of the three nullable columns are set, by status. *)
Definition request_shape (r : Request.row) : Prop :=
  (Request.status r = "open" ->
     Request.claimed_by r = None /\ Request.claim_proof_url r = None /\
     Request.completed_at r = None) /\
  (Request.status r = "claimed" ->
     Request.claimed_by r <> None /\ Request.claim_proof_url r = None /\
     Request.completed_at r = None) /\
  (Request.status r = "completed" ->
     Request.claimed_by r <> None /\ Request.claim_proof_url r <> None /\
     Request.completed_at r <> None).

(** [owner_id] and [claimed_by] name rows of [users] (the schema declares no
    FOREIGN KEY), and the claimer is not the owner. *)
Definition request_linked (st : db) (r : Request.row) : Prop :=
  In (Request.owner_id r) (map User.id (users st)) /\
  forall c, Request.claimed_by r = Some c ->
            In c (map User.id (users st)) /\ c <> Request.owner_id r.

(** Rowids 1, 2, ..., n in table order. *)
Definition counted_from_one (ids : list Z) : Prop :=
  ids = map Z.of_nat (seq 1 (List.length ids)).

(** The addition the call asks of SQLite, if it asks one, comes out as the
    exact integer sum: the balance it touches is an INTEGER and so is the
    result. *)
Definition exact (st : db) (o : op) : bool :=
  match o with
  | CreateRequest tg _ _ _ p _ =>
      match user_of st tg with
      | Some u => exact_add (User.points_col u) (- p)
      | None => true
      end
  | Confirm tg rid _ _ =>
      match user_of st tg, request_of st rid with
      | Some c, Some r =>
          exact_add (User.points_col c) (Request.points_requested r)
      | _, _ => true
      end
  | AdminAddPoints tg delta _ =>
      match user_of st tg with
      | Some u => exact_add (User.points_col u) delta
      | None => true
      end
  | _ => true
  end.

Fixpoint exact_run (st : db) (ops : list op) : bool :=
  match ops with
  | [] => true
  | o :: ops' => (failed st o || exact st o) && exact_run (step st o) ops'
  end.

(** Every create_request of the sequence passes an ASCII region. *)
Definition ascii_region (o : op) : bool :=
  match o with
  | CreateRequest _ _ region _ _ _ => is_ascii region
  | _ => true
  end.

Definition ascii_regions (ops : list op) : bool := forallb ascii_region ops.

(** Points handed out by the admin calls of a sequence that went through. *)
Definition grant (st : db) (o : op) : Z :=
  match o with
  | AdminAddPoints _ delta _ => if failed st o then 0 else delta
  | _ => 0
  end.

Fixpoint granted (st : db) (ops : list op) : Z :=
  match ops with
  | [] => 0
  | o :: ops' => grant st o + granted (step st o) ops'
  end.

(** ** Proof tools *)

Create Rewrite HintDb endpoints.

Ltac unfold_sql :=
  unfold validate_CreateRequestIn, select_users_by_telegram_id,
    select_requests_by_id, insert_user, insert_request, update_points_by_id,
    update_points_by_telegram_id, update_request_claimed,
    update_request_completed, bind, ret, raise.

(** Case analysis on one call: the endpoint in closed form, one goal for
    every way through it. *)
Ltac step_cases o :=
  destruct o; unfold step, exec;
  autorewrite with endpoints;
  repeat match goal with
         | |- context [match ?x with _ => _ end] => destruct x eqn:?
         end;
  cbn [snd].

(** Case analysis on the innermost tests first, so that the outcome and the
    database of one call are split together. *)
Ltac split_inner :=
  repeat (cbn [fst snd];
          match goal with
          | |- context [match ?x with _ => _ end] =>
              lazymatch x with
              | context [match _ with _ => _ end] => fail
              | _ => destruct x eqn:?
              end
          end).

(** ** The end-to-end scenario *)

Example scenario_balances :
  balance (run empty_db scenario) 1 = Some 20 /\
  balance (run empty_db scenario) 2 = Some 30 /\
  option_map Request.status (request_of (run empty_db scenario) 1)
    = Some "completed" /\
  option_map Request.region (request_of (run empty_db scenario) 1)
    = Some "IND".
Proof. vm_compute. repeat split. Qed.

(** ** Lists, rowids and first rows *)

Lemma next_id_above (ids : list Z) : Forall (fun i => i < next_id ids) ids.
Proof.
  unfold next_id. induction ids as [|a ids IH]; constructor;
    cbn [fold_right].
  - lia.
  - eapply Forall_impl; [|exact IH]. cbn beta. intros; lia.
Qed.

Lemma next_id_fresh (ids : list Z) : ~ In (next_id ids) ids.
Proof.
  intro H. pose proof (next_id_above ids) as F.
  rewrite Forall_forall in F. apply F in H. lia.
Qed.

Lemma hd_filter_map {A} (p : A -> bool) (f : A -> A) (l : list A) :
  (forall x, p (f x) = p x) ->
  hd_error (filter p (map f l)) = option_map f (hd_error (filter p l)).
Proof.
  intros Hp. induction l as [|a l IH]; simpl; [reflexivity|].
  rewrite Hp. destruct (p a); simpl; auto.
Qed.

Lemma hd_filter_app {A} (p : A -> bool) (l e : list A) (x : A) :
  hd_error (filter p l) = Some x -> hd_error (filter p (l ++ e)) = Some x.
Proof.
  rewrite filter_app. destruct (filter p l); simpl; [discriminate|auto].
Qed.

Lemma hd_filter_in {A} (p : A -> bool) (l : list A) (x : A) :
  hd_error (filter p l) = Some x -> In x l /\ p x = true.
Proof.
  intros H. apply filter_In. destruct (filter p l); [discriminate|].
  injection H as ->. now left.
Qed.

Lemma hd_filter_none {A} (p : A -> bool) (l : list A) :
  hd_error (filter p l) = None -> existsb p l = false.
Proof.
  induction l as [|a l IH]; simpl; [reflexivity|].
  destruct (p a); simpl; [discriminate|auto].
Qed.

Lemma user_of_in st tg u :
  user_of st tg = Some u -> In u (users st) /\ User.telegram_id u = tg.
Proof.
  intros H. apply hd_filter_in in H as [Hin Hp]. split; [auto|lia].
Qed.

Lemma request_of_in st rid r :
  request_of st rid = Some r -> In r (requests st) /\ Request.id r = rid.
Proof.
  intros H. apply hd_filter_in in H as [Hin Hp]. split; [auto|lia].
Qed.

(** With distinct keys, a row of the table is the first row of its SELECT. *)
Lemma hd_filter_nodup {A} (key : A -> Z) (l : list A) (x : A) :
  NoDup (map key l) -> In x l ->
  hd_error (filter (fun y => key y =? key x) l) = Some x.
Proof.
  induction l as [|a l IH]; simpl; intros Hnd Hin; [contradiction|].
  inversion Hnd as [|? ? Hnotin Hnd']; subst.
  destruct Hin as [->|Hin].
  - rewrite Z.eqb_refl. reflexivity.
  - destruct (key a =? key x) eqn:E.
    + exfalso. apply Hnotin. apply Z.eqb_eq in E. rewrite E.
      now apply in_map.
    + auto.
Qed.

(** ** Each endpoint in closed form *)

Lemma register_eq st tg name now :
  register tg name now st =
  match user_of st tg with
  | Some _ => (Ok "Already registered", st)
  | None =>
      if int64 tg
      then (Ok "Registered",
            mkdb (users st ++ [new_user st tg (or_empty name) now])
                 (requests st))
      else (Raise OverflowError, st)
  end.
Proof.
  unfold register, user_of. unfold_sql.
  destruct (filter _ (users st)) eqn:E; simpl; [|reflexivity].
  destruct (int64 tg); [|reflexivity].
  assert (H : existsb (fun u => User.telegram_id u =? tg) (users st) = false)
    by (apply hd_filter_none; rewrite E; reflexivity).
  rewrite H. reflexivity.
Qed.

Lemma me_eq st tg :
  me tg st =
  match user_of st tg with
  | Some u => (Ok u, st)
  | None =>
      if int64 tg then (Raise (HTTPException 404 "User not found"), st)
      else (Raise OverflowError, st)
  end.
Proof.
  unfold me, user_of. unfold_sql.
  destruct (filter _ (users st)); [|reflexivity].
  destruct (int64 tg); reflexivity.
Qed.

Lemma get_points_eq st tg :
  get_points tg st =
  match user_of st tg with
  | Some u => (Ok (User.points u), st)
  | None =>
      if int64 tg then (Raise (HTTPException 404 "User not found"), st)
      else (Raise OverflowError, st)
  end.
Proof.
  unfold get_points, user_of. unfold_sql.
  destruct (filter _ (users st)); [|reflexivity].
  destruct (int64 tg); reflexivity.
Qed.

Lemma create_request_eq st tg uid region proof p now :
  create_request tg uid region proof p now st =
  if (1 <=? p) && (p <=? 100) then
    match user_of st tg with
    | None =>
        if int64 tg
        then (Raise (HTTPException 404 "User not registered"), st)
        else (Raise OverflowError, st)
    | Some u =>
        if User.points u <? p
        then (Raise (HTTPException 400 "Not enough points to post request"),
              st)
        else (Ok "Request created and points staked",
              mkdb (map (credit_id (- p) (User.id u)) (users st))
                   (requests st ++
                      [new_request st (User.id u) uid region proof p now]))
    end
  else (Raise (RequestValidationError "points"), st).
Proof.
  unfold create_request, user_of. unfold_sql.
  destruct ((1 <=? p) && (p <=? 100)); cbn beta iota; [|reflexivity].
  destruct (filter _ (users st)) as [|u rest]; simpl.
  - destruct (int64 tg); reflexivity.
  - destruct (User.points u <? p); reflexivity.
Qed.

Lemma claim_eq st tg rid :
  claim tg rid st =
  match request_of st rid with
  | None =>
      if int64 rid
      then (Raise (HTTPException 404 "Request not found"), st)
      else (Raise OverflowError, st)
  | Some r =>
      if negb (Request.status r =? "open")%string
      then (Raise (HTTPException 400 "Request not open"), st)
      else
        match user_of st tg with
        | None =>
            if int64 tg
            then (Raise (HTTPException 404 "Claimer not registered"), st)
            else (Raise OverflowError, st)
        | Some c =>
            if User.id c =? Request.owner_id r
            then (Raise (HTTPException 400 "Owner cannot claim own request"),
                  st)
            else (Ok "Request claimed. Confirm with /request/confirm after liking",
                  mkdb (users st)
                       (map (claim_row (User.id c) (Request.id r))
                            (requests st)))
        end
  end.
Proof.
  unfold claim, user_of, request_of. unfold_sql.
  destruct (filter _ (requests st)) as [|r rest]; simpl.
  { destruct (int64 rid); reflexivity. }
  destruct (negb _); [reflexivity|].
  destruct (filter _ (users st)) as [|c rest']; simpl.
  { destruct (int64 tg); reflexivity. }
  destruct (User.id c =? Request.owner_id r); reflexivity.
Qed.

Lemma confirm_eq st tg rid proof now :
  confirm tg rid proof now st =
  match request_of st rid with
  | None =>
      if int64 rid
      then (Raise (HTTPException 404 "Request not found"), st)
      else (Raise OverflowError, st)
  | Some r =>
      if negb (Request.status r =? "claimed")%string
      then (Raise (HTTPException 400 "Request not in claimed state"), st)
      else
        match user_of st tg with
        | None =>
            if int64 tg
            then (Raise (HTTPException 404 "Claimer not registered"), st)
            else (Raise OverflowError, st)
        | Some c =>
            if differs_from (User.id c) (Request.claimed_by r)
            then (Raise (HTTPException 403 "Only claimer can confirm"), st)
            else (Ok "Confirmed. Points awarded to claimer",
                  mkdb (map (credit_id (Request.points_requested r)
                               (User.id c)) (users st))
                       (map (complete_row proof now (Request.id r))
                            (requests st)))
        end
  end.
Proof.
  unfold confirm, user_of, request_of. unfold_sql.
  destruct (filter _ (requests st)) as [|r rest]; simpl.
  { destruct (int64 rid); reflexivity. }
  destruct (negb _); [reflexivity|].
  destruct (filter _ (users st)) as [|c rest']; simpl.
  { destruct (int64 tg); reflexivity. }
  destruct (differs_from _ _); reflexivity.
Qed.

Lemma admin_add_points_eq st tg delta secret :
  admin_add_points tg delta secret st =
  if negb (secret =? "CHANGE_THIS_SECRET")%string
  then (Raise (HTTPException 401 "Unauthorized"), st)
  else
    match user_of st tg with
    | None =>
        if int64 tg then (Raise (HTTPException 404 "User not found"), st)
        else (Raise OverflowError, st)
    | Some _ =>
        if int64 delta
        then (Ok "Points added successfully",
              mkdb (map (credit_tg delta tg) (users st)) (requests st))
        else (Raise OverflowError, st)
    end.
Proof.
  unfold admin_add_points, user_of. unfold_sql.
  destruct (negb _); [reflexivity|].
  destruct (filter _ (users st)); simpl.
  - destruct (int64 tg); reflexivity.
  - destruct (int64 delta); reflexivity.
Qed.

#[local] Hint Rewrite register_eq me_eq create_request_eq claim_eq confirm_eq
  get_points_eq admin_add_points_eq : endpoints.

(** ** Keys survive the UPDATE statements *)

Lemma credit_id_id d i u : User.id (credit_id d i u) = User.id u.
Proof. unfold credit_id. destruct (_ =? _); reflexivity. Qed.

Lemma credit_id_tg d i u :
  User.telegram_id (credit_id d i u) = User.telegram_id u.
Proof. unfold credit_id. destruct (_ =? _); reflexivity. Qed.

Lemma credit_tg_id d t u : User.id (credit_tg d t u) = User.id u.
Proof. unfold credit_tg. destruct (_ =? _); reflexivity. Qed.

Lemma credit_tg_tg d t u :
  User.telegram_id (credit_tg d t u) = User.telegram_id u.
Proof. unfold credit_tg. destruct (_ =? _); reflexivity. Qed.

Lemma claim_row_id c i r : Request.id (claim_row c i r) = Request.id r.
Proof. unfold claim_row. destruct (_ =? _); reflexivity. Qed.

Lemma complete_row_id p n i r :
  Request.id (complete_row p n i r) = Request.id r.
Proof. unfold complete_row. destruct (_ =? _); reflexivity. Qed.

Lemma map_key_update {A} (key : A -> Z) (f : A -> A) (l : list A) :
  (forall x, key (f x) = key x) -> map key (map f l) = map key l.
Proof.
  intros H. rewrite map_map. apply map_ext. exact H.
Qed.

Lemma NoDup_snoc {A} (l : list A) (x : A) :
  NoDup l -> ~ In x l -> NoDup (l ++ [x]).
Proof.
  intros Hnd Hx. apply NoDup_app; [exact Hnd|repeat constructor; auto|].
  intros y Hy [<-|[]]. exact (Hx Hy).
Qed.

Lemma NoDup_key_inj {A} (key : A -> Z) (l : list A) (x y : A) :
  NoDup (map key l) -> In x l -> In y l -> key x = key y -> x = y.
Proof.
  intros Hnd Hx Hy Hk.
  pose proof (hd_filter_nodup key l x Hnd Hx) as H1.
  pose proof (hd_filter_nodup key l y Hnd Hy) as H2.
  rewrite Hk in H1. congruence.
Qed.

Lemma user_of_none_notin st tg :
  user_of st tg = None -> ~ In tg (map User.telegram_id (users st)).
Proof.
  intros H Hin. apply hd_filter_none in H.
  apply in_map_iff in Hin as (u & Hu & Hin).
  assert (E : existsb (fun u => User.telegram_id u =? tg) (users st) = true).
  { apply existsb_exists. exists u. split; [auto|lia]. }
  congruence.
Qed.

(** ** The schema constraints hold after every call *)

Lemma wf_empty : wf empty_db.
Proof. repeat split; constructor. Qed.

Lemma wf_step st o : wf st -> wf (step st o).
Proof.
  intros Hwf. pose proof Hwf as (Hu & Ht & Hr).
  step_cases o; try exact Hwf;
    unfold wf; cbn [users requests];
    rewrite ?map_app,
      ?(map_key_update User.id), ?(map_key_update User.telegram_id),
      ?(map_key_update Request.id)
      by auto using credit_id_id, credit_id_tg, credit_tg_id, credit_tg_tg,
           claim_row_id, complete_row_id;
    repeat split; auto; cbn [map];
    apply NoDup_snoc; auto using user_of_none_notin;
    apply next_id_fresh.
Qed.

Lemma wf_run st ops : wf st -> wf (run st ops).
Proof.
  revert st. induction ops as [|o ops IH]; intros st H; simpl; [exact H|].
  apply IH, wf_step, H.
Qed.

Lemma reachable_run st ops : reachable st -> reachable (run st ops).
Proof.
  revert st. induction ops as [|o ops IH]; intros st H; simpl; [exact H|].
  apply IH. now constructor.
Qed.

Lemma reachable_wf st : reachable st -> wf st.
Proof.
  induction 1; [apply wf_empty|now apply wf_step].
Qed.

(** ** What every request row satisfies after every call *)

Lemma request_ok_claim_row c i r :
  request_ok r -> request_ok (claim_row c i r).
Proof.
  intros (Hs & Hp & Ho). unfold claim_row.
  destruct (_ =? _); [|repeat split; tauto].
  unfold request_ok, valid_status; cbn. repeat split; auto; try tauto.
  discriminate.
Qed.

Lemma request_ok_complete_row p n i r :
  request_ok r -> request_ok (complete_row p n i r).
Proof.
  intros (Hs & Hp & Ho). unfold complete_row.
  destruct (_ =? _); [|repeat split; tauto].
  unfold request_ok, valid_status; cbn. repeat split; auto; try tauto.
  discriminate.
Qed.

Lemma requests_ok_step st o : requests_ok st -> requests_ok (step st o).
Proof.
  intros H. step_cases o; try exact H; unfold requests_ok in *;
    cbn [requests users].
  - apply Forall_app. split; [exact H|]. constructor; [|constructor].
    apply andb_true_iff in Heqb as [H1 H2].
    unfold request_ok, valid_status; cbn. repeat split; auto; lia.
  - apply Forall_map. eapply Forall_impl; [|exact H].
    intros; now apply request_ok_claim_row.
  - apply Forall_map. eapply Forall_impl; [|exact H].
    intros; now apply request_ok_complete_row.
Qed.

Lemma reachable_requests_ok st : reachable st -> requests_ok st.
Proof.
  induction 1; [constructor|now apply requests_ok_step].
Qed.

(** ** Doubles and the points column *)

Lemma value_affinity x : value (affinity x) = x.
Proof. unfold affinity. destruct (_ && _); reflexivity. Qed.

Lemma int64_iff z : int64 z = true <-> - 2 ^ 63 <= z <= 2 ^ 63 - 1.
Proof.
  unfold int64, min_int64, max_int64.
  rewrite andb_true_iff, !Z.leb_le. reflexivity.
Qed.

Lemma to_double_small x : Z.abs x < 2 ^ 53 -> to_double x = x.
Proof.
  intros H. unfold to_double, round_mantissa.
  assert (He : Z.log2 (Z.abs x) - 52 <= 0).
  { destruct (Z.eq_dec (Z.abs x) 0) as [E|E].
    - rewrite E. cbn. lia.
    - assert (Z.log2 (Z.abs x) < 53) by (apply Z.log2_lt_pow2; lia). lia. }
  apply Z.leb_le in He. cbv zeta. rewrite He. destruct x; cbn; lia.
Qed.

Lemma to_double_lower x : 0 < x -> 2 ^ Z.log2 x <= to_double x.
Proof.
  intros Hx. unfold to_double.
  rewrite Z.sgn_pos, Z.abs_eq, Z.mul_1_l by lia.
  pose proof (Z.log2_spec x Hx) as [Hlo _].
  unfold round_mantissa. cbv zeta.
  destruct (Z.log2 x - 52 <=? 0) eqn:He; [exact Hlo|].
  apply Z.leb_gt in He.
  set (e := Z.log2 x - 52) in *.
  assert (Hpow : 2 ^ Z.log2 x = 2 ^ 52 * 2 ^ e).
  { rewrite <- Z.pow_add_r by lia. f_equal. subst e. lia. }
  assert (Hpe : 0 < 2 ^ e) by (apply Z.pow_pos_nonneg; lia).
  assert (Hq : 2 ^ 52 <= x / 2 ^ e).
  { apply Z.div_le_lower_bound; [exact Hpe|]. lia. }
  rewrite Hpow. apply Z.mul_le_mono_nonneg_r; [lia|].
  destruct (_ <? _); [exact Hq|].
  destruct (_ <? _); [lia|]. destruct (Z.even _); lia.
Qed.

Lemma to_double_ge_pow k x : 0 <= k -> 2 ^ k <= x -> 2 ^ k <= to_double x.
Proof.
  intros Hk Hx.
  assert (Hpos : 0 < x).
  { assert (0 < 2 ^ k) by (apply Z.pow_pos_nonneg; lia). lia. }
  apply Z.le_trans with (2 ^ Z.log2 x); [|now apply to_double_lower].
  apply Z.pow_le_mono_r; [lia|]. now apply Z.log2_le_pow2.
Qed.

Lemma to_double_nonneg x : 0 <= x -> 0 <= to_double x.
Proof.
  intros Hx. destruct (Z.eq_dec x 0) as [->|Hne]; [reflexivity|].
  assert (0 < 2 ^ Z.log2 x)
    by (apply Z.pow_pos_nonneg; [lia|apply Z.log2_nonneg]).
  pose proof (to_double_lower x). lia.
Qed.

Lemma sql_add_exact a b :
  exact_add a b = true -> sql_add a b = Int (value a + b).
Proof.
  destruct a as [i|r]; cbn; [|discriminate]. now intros ->.
Qed.

Lemma sql_add_nonneg a b :
  0 <= value a -> 0 <= b -> 0 <= value (sql_add a b).
Proof.
  intros Ha Hb. destruct a as [i|r]; cbn in *.
  - destruct (int64 (i + b)); cbn; [lia|].
    rewrite value_affinity. apply to_double_nonneg.
    pose proof (to_double_nonneg i Ha). pose proof (to_double_nonneg b Hb).
    lia.
  - rewrite value_affinity. apply to_double_nonneg.
    pose proof (to_double_nonneg b Hb). lia.
Qed.

Lemma pow2_53 : 2 ^ 53 = 9007199254740992. Proof. reflexivity. Qed.
Lemma pow2_63 : 2 ^ 63 = 9223372036854775808. Proof. reflexivity. Qed.
Lemma pow2_62 : 2 ^ 62 = 4611686018427387904. Proof. reflexivity. Qed.

(** Taking a stake of 1..100 from a balance that covers it leaves what
    arithmetic says, as far as a comparison with a number up to 2^52 can
    tell. *)
Lemma stake_left a p q :
  1 <= p <= 100 -> p <= value a -> 0 <= q <= 2 ^ 52 ->
  (q <= value (sql_add a (- p)) <-> p + q <= value a).
Proof.
  intros Hp Hle Hq.
  assert (Hq' : q <= 4503599627370496)
    by (change (2 ^ 52) with 4503599627370496 in Hq; lia).
  assert (Hnp : to_double (- p) = - p).
  { apply to_double_small. rewrite pow2_53. lia. }
  destruct a as [i|r]; cbn in *.
  - destruct (int64 (i + - p)) eqn:E; cbn; [lia|].
    rewrite value_affinity, Hnp.
    assert (Hi : 2 ^ 63 <= i).
    { destruct (Z_lt_le_dec i (2 ^ 63)) as [Hlt|]; [|assumption].
      exfalso. assert (int64 (i + - p) = true); [|congruence].
      apply int64_iff. rewrite pow2_63 in *. lia. }
    pose proof (to_double_ge_pow 63 i ltac:(lia) Hi) as H1.
    assert (H2 : 2 ^ 62 <= to_double i + - p)
      by (rewrite pow2_63, pow2_62 in *; lia).
    pose proof (to_double_ge_pow 62 _ ltac:(lia) H2) as H3.
    rewrite pow2_63, pow2_62 in *. split; lia.
  - rewrite value_affinity, Hnp.
    destruct (Z_lt_le_dec (r + - p) (2 ^ 53)) as [Hlt|Hge].
    + rewrite to_double_small by (rewrite pow2_53 in *; lia). lia.
    + pose proof (to_double_ge_pow 53 _ ltac:(lia) Hge) as H3.
      rewrite pow2_53 in *. split; lia.
Qed.

(** ** Balances *)

Lemma solvent_step st o :
  wf st -> requests_ok st -> solvent st -> admin_ok st o = true ->
  solvent (step st o).
Proof.
  intros (Hu & Ht & _) Hreq Hs Hadm. unfold solvent in *.
  step_cases o; try exact Hs; cbn [users requests].
  - (* register *)
    apply Forall_app. split; [exact Hs|]. repeat constructor. cbn. lia.
  - (* create_request *)
    apply Forall_map. rewrite Forall_forall in *. intros v Hv.
    unfold credit_id. destruct (User.id v =? User.id r) eqn:E; [|auto].
    apply Z.eqb_eq in E. apply user_of_in in Heqo as [Hin _].
    assert (v = r) by (eapply (NoDup_key_inj User.id); eauto). subst v.
    apply Z.ltb_ge in Heqb0. apply andb_true_iff in Heqb as [H1 H2].
    apply Z.leb_le in H1. apply Z.leb_le in H2.
    unfold User.points in Heqb0.
    apply (stake_left (User.points_col r) points 0);
      change (2 ^ 52) with 4503599627370496; lia.
  - (* confirm *)
    apply Forall_map. rewrite Forall_forall in *. intros v Hv.
    unfold credit_id. destruct (User.id v =? User.id r0); [|auto].
    apply request_of_in in Heqo as [Hin _].
    unfold requests_ok in Hreq. rewrite Forall_forall in Hreq.
    destruct (Hreq _ Hin) as (_ & Hp & _).
    apply sql_add_nonneg; [apply (Hs _ Hv)|lia].
  - (* admin_add_points *)
    apply Forall_map. rewrite Forall_forall in *. intros v Hv.
    unfold credit_tg. destruct (User.telegram_id v =? telegram_id) eqn:E;
      [|auto].
    apply Z.eqb_eq in E. cbn [admin_ok] in Hadm.
    rewrite Heqb, Heqo in Hadm. cbn [negb orb] in Hadm.
    destruct (int64 points) eqn:Hd; [|discriminate].
    cbn [negb orb] in Hadm. apply Z.leb_le in Hadm.
    apply user_of_in in Heqo as [Hin Htg].
    assert (v = r) by (eapply (NoDup_key_inj User.telegram_id); eauto; lia).
    subst v. exact Hadm.
Qed.

Lemma solvent_run ops : forall st,
  wf st -> requests_ok st -> solvent st -> admin_guarded st ops = true ->
  solvent (run st ops).
Proof.
  induction ops as [|o ops IH]; intros st Hwf Hreq Hs Hg; simpl;
    [exact Hs|].
  cbn in Hg. apply andb_true_iff in Hg as [Ho Hg].
  apply IH; auto using wf_step, requests_ok_step, solvent_step.
Qed.

(** Deltas at or above zero are always guarded. *)
Lemma admin_ok_nonneg st tg delta secret :
  solvent st -> 0 <= delta ->
  admin_ok st (AdminAddPoints tg delta secret) = true.
Proof.
  intros Hs Hd. cbn [admin_ok]. apply orb_true_iff. right.
  destruct (user_of st tg) as [u|] eqn:E; [|reflexivity].
  apply user_of_in in E as [Hin _]. unfold solvent in Hs.
  rewrite Forall_forall in Hs. apply Hs in Hin.
  apply orb_true_iff. right. apply Z.leb_le.
  now apply sql_add_nonneg.
Qed.

Lemma nonneg_deltas_guarded ops : forall st,
  wf st -> requests_ok st -> solvent st -> Forall nonneg_delta ops ->
  admin_guarded st ops = true.
Proof.
  induction ops as [|o ops IH]; intros st Hwf Hreq Hs Hall; [reflexivity|].
  inversion Hall as [|? ? Ho Hall']; subst. cbn.
  assert (Hok : admin_ok st o = true).
  { destruct o; try reflexivity. now apply admin_ok_nonneg. }
  rewrite Hok. cbn.
  apply IH; auto using wf_step, requests_ok_step, solvent_step.
Qed.

(** ** The life of one request across calls *)

Lemma request_of_step st o rid r :
  requests_ok st -> request_of st rid = Some r ->
  exists r',
    request_of (step st o) rid = Some r' /\
    Request.owner_id r' = Request.owner_id r /\
    Request.points_requested r' = Request.points_requested r /\
    forward_step (Request.status r) (Request.status r') /\
    (forall c, Request.claimed_by r = Some c ->
               Request.claimed_by r' = Some c).
Proof.
  intros Hreq Hr.
  assert (Hok : request_ok r).
  { unfold requests_ok in Hreq. rewrite Forall_forall in Hreq.
    apply Hreq. now apply request_of_in in Hr. }
  assert (Hsame : exists r',
    request_of st rid = Some r' /\
    Request.owner_id r' = Request.owner_id r /\
    Request.points_requested r' = Request.points_requested r /\
    forward_step (Request.status r) (Request.status r') /\
    (forall c, Request.claimed_by r = Some c ->
               Request.claimed_by r' = Some c)).
  { exists r. unfold forward_step. repeat split; auto. }
  step_cases o; try exact Hsame; clear Hsame; unfold request_of in *;
    cbn [requests users].
  - (* create_request *)
    exists r. unfold forward_step. repeat split; auto.
    now apply hd_filter_app.
  - (* claim *)
    rewrite hd_filter_map by (intros; now rewrite claim_row_id).
    rewrite Hr. cbn. eexists; split; [reflexivity|].
    unfold claim_row. destruct (Request.id r =? Request.id r0) eqn:E;
      [|unfold forward_step; auto].
    apply Z.eqb_eq in E.
    assert (rid = request_id).
    { apply hd_filter_in in Hr as [_ H1]. apply hd_filter_in in Heqo as [_ H2].
      lia. }
    subst. rewrite Hr in Heqo. injection Heqo as <-.
    apply negb_false_iff, String.eqb_eq in Heqb.
    destruct Hok as (_ & _ & Hnone). rewrite (Hnone Heqb).
    unfold forward_step; cbn. repeat split; auto; discriminate.
  - (* confirm *)
    rewrite hd_filter_map by (intros; now rewrite complete_row_id).
    rewrite Hr. cbn. eexists; split; [reflexivity|].
    unfold complete_row. destruct (Request.id r =? Request.id r0) eqn:E;
      [|unfold forward_step; auto].
    apply Z.eqb_eq in E.
    assert (rid = request_id).
    { apply hd_filter_in in Hr as [_ H1]. apply hd_filter_in in Heqo as [_ H2].
      lia. }
    subst. rewrite Hr in Heqo. injection Heqo as <-.
    apply negb_false_iff, String.eqb_eq in Heqb.
    unfold forward_step; cbn. repeat split; auto.
Qed.

Lemma forward_then_step a b c :
  forward a b -> forward_step b c -> forward a c.
Proof.
  unfold forward, forward_step. intros H1 H2.
  destruct H1 as [->|[[-> [->| ->]]|[-> ->]]];
    destruct H2 as [->|[[E ->]|[E ->]]]; try discriminate E; auto.
Qed.

Lemma request_of_run ops : forall st rid r,
  requests_ok st -> request_of st rid = Some r ->
  exists r',
    request_of (run st ops) rid = Some r' /\
    Request.owner_id r' = Request.owner_id r /\
    Request.points_requested r' = Request.points_requested r /\
    forward (Request.status r) (Request.status r') /\
    (forall c, Request.claimed_by r = Some c ->
               Request.claimed_by r' = Some c).
Proof.
  induction ops as [|o ops IH]; intros st rid r Hreq Hr; simpl.
  - exists r. unfold forward. repeat split; auto.
  - destruct (request_of_step st o rid r Hreq Hr)
      as (r1 & H1 & Ho1 & Hp1 & Hf1 & Hc1).
    destruct (IH (step st o) rid r1 (requests_ok_step _ _ Hreq) H1)
      as (r2 & H2 & Ho2 & Hp2 & Hf2 & Hc2).
    exists r2. repeat split; auto; try congruence.
    clear - Hf1 Hf2. unfold forward, forward_step in *.
    destruct Hf1 as [E1|[[E1 E1']|[E1 E1']]];
      destruct Hf2 as [E2|[[E2 [E2'|E2']]|[E2 E2']]];
      rewrite ?E1, ?E1', ?E2, ?E2' in *; try discriminate; auto.
Qed.

(** ** Balances never go below zero without an admin debit *)

(** Counterexample to C1 as stated: the admin endpoint adds any integer to a
    balance, so registering a user and adjusting by -5 leaves that user at
    -5. *)
Lemma admin_delta_overdraws :
  get_points 1 (run empty_db overdraw) = (Ok (-5), run empty_db overdraw) /\
  ~ solvent (run empty_db overdraw).
Proof.
  split; [reflexivity|].
  intros H. vm_compute in H. inversion H as [|? ? Hneg _]; subst.
  apply Hneg. reflexivity.
Qed.

(** C1 (amended): starting from the empty database, after any sequence of
    register, create_request, claim, confirm and admin_add_points calls in
    which no admin call that goes through takes the adjusted balance below
    zero (any delta at or above zero qualifies), every user's balance is at
    or above zero. *)
Theorem balances_stay_nonnegative (ops : list op) :
  admin_guarded empty_db ops = true ->
  solvent (run empty_db ops) /\
  forall tg b, balance (run empty_db ops) tg = Some b -> 0 <= b.
Proof.
  intros Hg.
  assert (Hs : solvent (run empty_db ops)).
  { apply solvent_run; auto using wf_empty; constructor. }
  split; [exact Hs|].
  intros tg b Hb. unfold balance in Hb.
  destruct (user_of _ tg) as [u|] eqn:E; [|discriminate].
  injection Hb as <-. apply user_of_in in E as [Hin _].
  unfold solvent in Hs. rewrite Forall_forall in Hs. now apply Hs.
Qed.

Lemma balances_stay_nonnegative_witness :
  admin_guarded empty_db scenario = true /\
  solvent (run empty_db scenario) /\
  forall tg b, balance (run empty_db scenario) tg = Some b -> 0 <= b.
Proof.
  split; [reflexivity|]. apply (balances_stay_nonnegative scenario).
  reflexivity.
Defined.

(** ** The status of a request only moves forward *)

(** C5: in every state reached from a reachable state by any sequence of
    calls, every status is one of open, claimed, completed; a request that
    existed before is still there under its id with the same
    points_requested, a status that is the same or further along
    (open, claimed, completed in that order, one state per call), and the
    claimed_by it had if it had one. *)
Theorem request_lifecycle_forward (st : db) (ops : list op) :
  reachable st ->
  Forall (fun r => valid_status (Request.status r)) (requests (run st ops)) /\
  (forall r, In r (requests st) ->
     exists r',
       request_of (run st ops) (Request.id r) = Some r' /\
       Request.points_requested r' = Request.points_requested r /\
       forward (Request.status r) (Request.status r') /\
       (forall c, Request.claimed_by r = Some c ->
                  Request.claimed_by r' = Some c)) /\
  (forall o r, In r (requests st) ->
     exists r',
       request_of (step st o) (Request.id r) = Some r' /\
       forward_step (Request.status r) (Request.status r')).
Proof.
  intros Hreach.
  pose proof (reachable_wf _ Hreach) as (_ & _ & Hnd).
  pose proof (reachable_requests_ok _ Hreach) as Hreq.
  assert (Hlook : forall r, In r (requests st) ->
                    request_of st (Request.id r) = Some r).
  { intros r Hin. now apply (hd_filter_nodup Request.id). }
  split; [|split].
  - pose proof (reachable_requests_ok _ (reachable_run st ops Hreach)) as H.
    eapply Forall_impl; [|exact H]. now intros r (Hs & _).
  - intros r Hin.
    destruct (request_of_run ops st _ r Hreq (Hlook r Hin))
      as (r' & H1 & _ & H2 & H3 & H4).
    exists r'. auto.
  - intros o r Hin.
    destruct (request_of_step st o _ r Hreq (Hlook r Hin))
      as (r' & H1 & _ & _ & H3 & _).
    exists r'. auto.
Qed.

Lemma request_lifecycle_forward_witness :
  reachable (run empty_db scenario_open) /\
  forall r, In r (requests (run empty_db scenario_open)) ->
    exists r',
      request_of (run (run empty_db scenario_open)
                      [ Claim 2 1; Confirm 2 1 "https://b/" "t" ])
                 (Request.id r) = Some r' /\
      Request.points_requested r' = Request.points_requested r /\
      forward (Request.status r) (Request.status r') /\
      (forall c, Request.claimed_by r = Some c ->
                 Request.claimed_by r' = Some c).
Proof.
  assert (Hreach : reachable (run empty_db scenario_open))
    by (apply reachable_run; constructor).
  split; [exact Hreach|].
  apply (request_lifecycle_forward (run empty_db scenario_open)
           [ Claim 2 1; Confirm 2 1 "https://b/" "t" ] Hreach).
Defined.

(** ** Facts shared by the endpoint theorems *)

Lemma upper_char_idempotent c : upper_char (upper_char c) = upper_char c.
Proof. destruct c as [[] [] [] [] [] [] [] []]; reflexivity. Qed.

Lemma upper_idempotent s : upper (upper s) = upper s.
Proof.
  induction s as [|c s IH]; simpl; [reflexivity|].
  now rewrite upper_char_idempotent, IH.
Qed.

Lemma user_of_credit_id st reqs d i tg :
  user_of (mkdb (map (credit_id d i) (users st)) reqs) tg =
  option_map (credit_id d i) (user_of st tg).
Proof.
  unfold user_of; cbn [users].
  apply hd_filter_map. intros; now rewrite credit_id_tg.
Qed.

Lemma filter_nodup_single {A} (key : A -> Z) (l : list A) (x : A) :
  NoDup (map key l) -> In x l ->
  filter (fun y => key y =? key x) l = [x].
Proof.
  induction l as [|a l IH]; simpl; intros Hnd Hin; [contradiction|].
  inversion Hnd as [|? ? Hnotin Hnd']; subst.
  assert (Hrest : forall k, ~ In k (map key l) ->
                    filter (fun y => key y =? k) l = []).
  { clear. intros k Hk. induction l as [|b l IH]; simpl; [reflexivity|].
    destruct (key b =? k) eqn:E.
    - exfalso. apply Hk. left. now apply Z.eqb_eq.
    - apply IH. intro H. apply Hk. now right. }
  destruct Hin as [->|Hin].
  - rewrite Z.eqb_refl. f_equal. now apply Hrest.
  - destruct (key a =? key x) eqn:E.
    + exfalso. apply Hnotin. apply Z.eqb_eq in E. rewrite E.
      now apply in_map.
    + auto.
Qed.

(** ** create_request stakes the points *)


Lemma no_small_letter_upper s : no_small_letter (upper s) = true.
Proof.
  induction s as [|c s IH]; cbn [upper no_small_letter]; [reflexivity|].
  rewrite IH, andb_true_r.
  destruct c as [[] [] [] [] [] [] [] []]; vm_compute; reflexivity.
Qed.

Lemma is_ascii_upper s : is_ascii s = true -> is_ascii (upper s) = true.
Proof.
  induction s as [|c s IH]; cbn [upper is_ascii]; [reflexivity|].
  intros H. apply andb_true_iff in H as [Hc Hs].
  rewrite (IH Hs), andb_true_r. revert Hc.
  destruct c as [[] [] [] [] [] [] [] []]; vm_compute; auto.
Qed.




(** Upper case of a second region, letters and other characters alike. *)
Example create_request_region_eu :
  option_map Request.region
    (request_of
       (exec (create_request 1 "2476897412" "eu-West 1" "https://a/" 30
                "2024-01-01T00:00:01") (run empty_db (firstn 2 scenario))) 1)
  = Some "EU-WEST 1".
Proof. reflexivity. Qed.

(** ** confirm settles a claimed request *)

(** Counterexample to C3 as stated: a claimer who holds the largest 64-bit
    integer and confirms a request of 30 points ends with the double 2^63 in
    the column, which is one more than before and not 30 more. *)
Lemma confirm_overflows_to_real :
  let st := run empty_db scenario_rich_claimer in
  let st' := exec (confirm 2 1 "https://b/" "2024-01-01T00:00:03") st in
  balance st 2 = Some max_int64 /\
  option_map Request.status (request_of st 1) = Some "claimed" /\
  option_map Request.points_requested (request_of st 1) = Some 30 /\
  confirm 2 1 "https://b/" "2024-01-01T00:00:03" st
    = (Ok "Confirmed. Points awarded to claimer", st') /\
  balance st' 2 = Some (2 ^ 63) /\
  balance st' 2 <> Some (max_int64 + 30).
Proof. vm_compute. repeat split. discriminate. Qed.

(** C3 (amended): on a claimed request, confirm called by the user recorded
    in claimed_by returns and leaves the request completed with the supplied
    proof and the completion time; when that user's balance is held as an
    integer and the balance plus points_requested still fits 64 bits, the
    balance grows by exactly points_requested; any further confirm on the
    request raises 400 "Request not in claimed state" (InvalidState) and
    leaves the database as it is. *)
Theorem confirm_settles st tg rid proof now r c :
  request_of st rid = Some r ->
  Request.status r = "claimed" ->
  user_of st tg = Some c ->
  Request.claimed_by r = Some (User.id c) ->
  let st' := exec (confirm tg rid proof now) st in
  confirm tg rid proof now st
    = (Ok "Confirmed. Points awarded to claimer", st') /\
  (exists r',
     request_of st' rid = Some r' /\
     Request.status r' = "completed" /\
     Request.claim_proof_url r' = Some proof /\
     Request.completed_at r' = Some now /\
     Request.points_requested r' = Request.points_requested r /\
     Request.claimed_by r' = Request.claimed_by r) /\
  (exact_add (User.points_col c) (Request.points_requested r) = true ->
   balance st' tg = Some (User.points c + Request.points_requested r)) /\
  forall tg2 proof2 now2,
    confirm tg2 rid proof2 now2 st'
      = (Raise (HTTPException 400 "Request not in claimed state"), st').
Proof.
  intros Hr Hst Hc Hby st'. subst st'. unfold exec.
  rewrite confirm_eq, Hr, Hst, Hc, Hby, String.eqb_refl.
  cbn [negb differs_from]. rewrite Z.eqb_refl. cbn [negb snd].
  assert (Hrid : Request.id r = rid) by (now apply request_of_in in Hr).
  assert (Hr' : request_of
                  (mkdb (map (credit_id (Request.points_requested r)
                                (User.id c)) (users st))
                        (map (complete_row proof now (Request.id r))
                             (requests st))) rid
                = Some (Request.set_completed proof now r)).
  { unfold request_of in *; cbn [requests].
    rewrite hd_filter_map by (intros; now rewrite complete_row_id).
    rewrite Hr. cbn. unfold complete_row. now rewrite Z.eqb_refl. }
  split; [reflexivity|]. split; [|split].
  - eexists. split; [exact Hr'|]. cbn. auto.
  - intros Hex. unfold balance. rewrite user_of_credit_id, Hc.
    cbn [option_map]. unfold credit_id. rewrite Z.eqb_refl.
    unfold User.points, User.add_points. cbn [User.points_col].
    now rewrite sql_add_exact.
  - intros tg2 proof2 now2. rewrite confirm_eq, Hr'. reflexivity.
Qed.

Lemma confirm_settles_witness :
  let st := run empty_db scenario_claimed in
  let st' := exec (confirm 2 1 "https://b/" "2024-01-01T00:00:03") st in
  balance st 2 = Some 0 /\
  balance st' 2 = Some (0 + 30) /\
  confirm 2 1 "https://b/" "2024-01-01T00:00:04" st'
    = (Raise (HTTPException 400 "Request not in claimed state"), st').
Proof.
  intros st st'.
  destruct (confirm_settles st 2 1 "https://b/" "2024-01-01T00:00:03"
              (Request.mk 1 1 "2476897412" "IND" "https://a/" 30 "claimed"
                 "2024-01-01T00:00:01" (Some 2) None None)
              (User.mk 2 2 "" 0 0 "2024-01-01T00:00:02"))
    as (_ & _ & Hb & Hagain); try reflexivity.
  split; [reflexivity|]. split; [now apply Hb|apply Hagain].
Defined.

(** ** claim reserves an open request *)

(** C4: on an open request, claim called by a registered user who is not the
    owner returns, leaves the request claimed with claimed_by that user, and
    leaves the users table (hence every balance) as it was; any further claim
    on the request raises 400 "Request not open" (InvalidState). *)
Theorem claim_reserves st tg rid r c :
  request_of st rid = Some r ->
  Request.status r = "open" ->
  user_of st tg = Some c ->
  User.id c <> Request.owner_id r ->
  let st' := exec (claim tg rid) st in
  claim tg rid st
    = (Ok "Request claimed. Confirm with /request/confirm after liking", st')
  /\
  (exists r',
     request_of st' rid = Some r' /\
     Request.status r' = "claimed" /\
     Request.claimed_by r' = Some (User.id c) /\
     Request.owner_id r' = Request.owner_id r /\
     Request.points_requested r' = Request.points_requested r) /\
  users st' = users st /\
  (forall tg', balance st' tg' = balance st tg') /\
  forall tg2,
    claim tg2 rid st' = (Raise (HTTPException 400 "Request not open"), st').
Proof.
  intros Hr Hst Hc Hne st'. subst st'. unfold exec.
  rewrite claim_eq, Hr, Hst, Hc, String.eqb_refl. cbn [negb].
  replace (User.id c =? Request.owner_id r) with false
    by (symmetry; now apply Z.eqb_neq).
  cbn [negb snd].
  assert (Hr' : request_of
                  (mkdb (users st)
                        (map (claim_row (User.id c) (Request.id r))
                             (requests st))) rid
                = Some (Request.set_claimed (User.id c) r)).
  { unfold request_of in *; cbn [requests].
    rewrite hd_filter_map by (intros; now rewrite claim_row_id).
    rewrite Hr. cbn. unfold claim_row. now rewrite Z.eqb_refl. }
  split; [reflexivity|]. split; [|split; [|split]].
  - eexists. split; [exact Hr'|]. cbn. auto.
  - reflexivity.
  - reflexivity.
  - intros tg2. rewrite claim_eq, Hr'. reflexivity.
Qed.

Lemma claim_reserves_witness :
  let st := run empty_db scenario_open in
  let st' := exec (claim 2 1) st in
  users st' = users st /\
  option_map Request.status (request_of st' 1) = Some "claimed" /\
  claim 2 1 st' = (Raise (HTTPException 400 "Request not open"), st').
Proof.
  intros st st'.
  destruct (claim_reserves st 2 1
              (Request.mk 1 1 "2476897412" "IND" "https://a/" 30 "open"
                 "2024-01-01T00:00:01" None None None)
              (User.mk 2 2 "" 0 0 "2024-01-01T00:00:02"))
    as (_ & _ & Hu & _ & Hagain); try reflexivity.
  - cbn. lia.
  - split; [exact Hu|]. split; [reflexivity|apply Hagain].
Defined.

(** ** Who may claim, who may confirm *)

(** C6: on an open request, claim called by the owner raises 400 "Owner
    cannot claim own request" (SelfClaim); on a claimed request, confirm
    called by a registered user other than the one in claimed_by raises 403
    "Only claimer can confirm" (Forbidden); either way the database, so the
    request and every balance, is left as it was. *)
Theorem wrong_actor_rejected st tg rid r c :
  request_of st rid = Some r ->
  user_of st tg = Some c ->
  (Request.status r = "open" -> User.id c = Request.owner_id r ->
   claim tg rid st
     = (Raise (HTTPException 400 "Owner cannot claim own request"), st)) /\
  (Request.status r = "claimed" ->
   Request.claimed_by r <> Some (User.id c) ->
   forall proof now,
     confirm tg rid proof now st
       = (Raise (HTTPException 403 "Only claimer can confirm"), st)).
Proof.
  intros Hr Hc. split.
  - intros Hst Hown.
    rewrite claim_eq, Hr, Hst, Hc, Hown, Z.eqb_refl, String.eqb_refl.
    reflexivity.
  - intros Hst Hby proof now.
    rewrite confirm_eq, Hr, Hst, Hc, String.eqb_refl. cbn [negb].
    replace (differs_from (User.id c) (Request.claimed_by r)) with true;
      [reflexivity|].
    unfold differs_from. destruct (Request.claimed_by r) as [x|];
      [|reflexivity].
    symmetry. apply negb_true_iff, Z.eqb_neq. congruence.
Qed.

Lemma wrong_actor_rejected_witness :
  (let st := run empty_db scenario_open in
   claim 1 1 st
     = (Raise (HTTPException 400 "Owner cannot claim own request"), st)) /\
  (let st := run empty_db scenario_claimed in
   confirm 1 1 "https://b/" "2024-01-01T00:00:03" st
     = (Raise (HTTPException 403 "Only claimer can confirm"), st)).
Proof.
  split; intros st.
  - apply (wrong_actor_rejected st 1 1
             (Request.mk 1 1 "2476897412" "IND" "https://a/" 30 "open"
                "2024-01-01T00:00:01" None None None)
             (User.mk 1 1 "A" 20 0 "2024-01-01T00:00:00"));
      reflexivity.
  - apply (wrong_actor_rejected st 1 1
             (Request.mk 1 1 "2476897412" "IND" "https://a/" 30 "claimed"
                "2024-01-01T00:00:01" (Some 2) None None)
             (User.mk 1 1 "A" 20 0 "2024-01-01T00:00:00"));
      try reflexivity.
    cbn. discriminate.
Defined.

(** ** The failures of create_request *)

(** Counterexample to C7 as stated: the body is validated before the handler
    looks the owner up, so an unknown owner with points 0 gets the validation
    error, not 404 "User not registered"; and a registered owner holding 50
    who asks for 101 gets the validation error, not 400 "Not enough
    points". *)
Lemma create_request_validates_first :
  (user_of empty_db 7 = None /\
   create_request 7 "2476897412" "IND" "https://a/" 0 "2024-01-01T00:00:00"
     empty_db
     = (Raise (RequestValidationError "points"), empty_db) /\
   create_request 7 "2476897412" "IND" "https://a/" 0 "2024-01-01T00:00:00"
     empty_db
     <> (Raise (HTTPException 404 "User not registered"), empty_db)) /\
  (let st := run empty_db (firstn 2 scenario) in
   balance st 1 = Some 50 /\
   create_request 1 "2476897412" "IND" "https://a/" 101 "2024-01-01T00:00:01"
     st
     = (Raise (RequestValidationError "points"), st) /\
   create_request 1 "2476897412" "IND" "https://a/" 101 "2024-01-01T00:00:01"
     st
     <> (Raise (HTTPException 400 "Not enough points to post request"), st)).
Proof. repeat split; discriminate. Qed.

(** C7 (amended): create_request raises the validation error on [points]
    (InvalidAmount) whenever points is outside 1..100, whoever the owner is;
    with points in 1..100 it raises 404 "User not registered" (NotRegistered)
    when the owner's telegram id fits 64 bits and is unknown, OverflowError
    (a 500) when the telegram id does not fit 64 bits, and 400 "Not enough
    points to post request" (InsufficientFunds) when the owner is registered
    with a balance below points.  In each case the database is left as it
    was: no request inserted, no balance changed. *)
Theorem create_request_failures st tg uid region proof p now :
  (~ 1 <= p <= 100 ->
   create_request tg uid region proof p now st
     = (Raise (RequestValidationError "points"), st)) /\
  (1 <= p <= 100 -> user_of st tg = None -> int64 tg = true ->
   create_request tg uid region proof p now st
     = (Raise (HTTPException 404 "User not registered"), st)) /\
  (1 <= p <= 100 -> user_of st tg = None -> int64 tg = false ->
   create_request tg uid region proof p now st
     = (Raise OverflowError, st)) /\
  (1 <= p <= 100 ->
   forall u, user_of st tg = Some u -> User.points u < p ->
   create_request tg uid region proof p now st
     = (Raise (HTTPException 400 "Not enough points to post request"), st)).
Proof.
  rewrite create_request_eq. repeat split.
  - intros Hp.
    replace ((1 <=? p) && (p <=? 100)) with false; [reflexivity|].
    symmetry. apply andb_false_iff.
    destruct (Z_lt_le_dec p 1); [left; apply Z.leb_gt; lia|].
    right. apply Z.leb_gt. lia.
  - intros Hp Hu Htg.
    replace ((1 <=? p) && (p <=? 100)) with true
      by (symmetry; apply andb_true_iff; split; apply Z.leb_le; lia).
    now rewrite Hu, Htg.
  - intros Hp Hu Htg.
    replace ((1 <=? p) && (p <=? 100)) with true
      by (symmetry; apply andb_true_iff; split; apply Z.leb_le; lia).
    now rewrite Hu, Htg.
  - intros Hp u Hu Hlt.
    replace ((1 <=? p) && (p <=? 100)) with true
      by (symmetry; apply andb_true_iff; split; apply Z.leb_le; lia).
    rewrite Hu.
    replace (User.points u <? p) with true
      by (symmetry; apply Z.ltb_lt; lia).
    reflexivity.
Qed.

Lemma create_request_failures_witness :
  (create_request 7 "2476897412" "IND" "https://a/" 0 "2024-01-01T00:00:00"
     empty_db
     = (Raise (RequestValidationError "points"), empty_db)) /\
  (create_request 7 "2476897412" "IND" "https://a/" 5 "2024-01-01T00:00:00"
     empty_db
     = (Raise (HTTPException 404 "User not registered"), empty_db)) /\
  (create_request (2 ^ 63) "2476897412" "IND" "https://a/" 5
     "2024-01-01T00:00:00" empty_db
     = (Raise OverflowError, empty_db)) /\
  (let st := run empty_db (firstn 2 scenario) in
   create_request 1 "2476897412" "IND" "https://a/" 60 "2024-01-01T00:00:01"
     st
     = (Raise (HTTPException 400 "Not enough points to post request"), st)).
Proof.
  split; [|split; [|split]].
  - apply (create_request_failures empty_db 7 "2476897412" "IND" "https://a/"
             0 "2024-01-01T00:00:00"). lia.
  - apply (create_request_failures empty_db 7 "2476897412" "IND" "https://a/"
             5 "2024-01-01T00:00:00"); [lia|reflexivity|reflexivity].
  - apply (create_request_failures empty_db (2 ^ 63) "2476897412" "IND"
             "https://a/" 5 "2024-01-01T00:00:00");
      [lia|reflexivity|reflexivity].
  - intros st.
    apply (create_request_failures st 1 "2476897412" "IND" "https://a/"
             60 "2024-01-01T00:00:01")
      with (u := User.mk 1 1 "A" 50 0 "2024-01-01T00:00:00");
      [lia|reflexivity|cbn; lia].
Defined.

(** ** register twice *)

(** Counterexample to C8 as stated: the telegram id 2^63 does not fit the
    64 bits sqlite3 binds, so register raises OverflowError on the first
    call and on every later one, and no user row is ever written. *)
Lemma register_beyond_64_bits :
  register (2 ^ 63) (Some "A") "2024-01-01T00:00:00" empty_db
    = (Raise OverflowError, empty_db) /\
  register (2 ^ 63) (Some "B") "2024-01-01T00:00:09"
    (exec (register (2 ^ 63) (Some "A") "2024-01-01T00:00:00") empty_db)
    = (Raise OverflowError, empty_db) /\
  users (exec (register (2 ^ 63) (Some "A") "2024-01-01T00:00:00") empty_db)
    = [].
Proof. vm_compute. repeat split. Qed.

(** C8 (amended): for a telegram id that fits 64 bits, whatever the database
    (under the schema's constraints) and whatever the two display names, the
    first register returns, the second returns "Already registered" and
    leaves the database exactly as the first left it, there is exactly one
    user row with that telegram id, and a user who was already registered
    before the first call is left untouched by it. *)
Theorem register_idempotent st tg name1 name2 now1 now2 :
  wf st -> int64 tg = true ->
  let st1 := exec (register tg name1 now1) st in
  (exists msg, register tg name1 now1 st = (Ok msg, st1)) /\
  register tg name2 now2 st1 = (Ok "Already registered", st1) /\
  List.length (filter (fun u => User.telegram_id u =? tg) (users st1))
    = 1%nat /\
  (forall u, user_of st tg = Some u -> st1 = st) /\
  (user_of st tg = None -> balance st1 tg = Some 0).
Proof.
  intros (_ & Htg & _) Hint st1. subst st1. unfold exec.
  rewrite register_eq, Hint.
  destruct (user_of st tg) as [u|] eqn:Hu; cbn [snd].
  - split; [eauto|]. split; [now rewrite register_eq, Hu|].
    split; [|split; [reflexivity|discriminate]].
    apply user_of_in in Hu as [Hin <-].
    now rewrite (filter_nodup_single User.telegram_id).
  - assert (Hnone : filter (fun u => User.telegram_id u =? tg) (users st)
                    = []).
    { unfold user_of in Hu. now destruct (filter _ (users st)). }
    assert (Hnew : user_of
                     (mkdb (users st ++ [new_user st tg (or_empty name1) now1])
                           (requests st)) tg
                   = Some (new_user st tg (or_empty name1) now1)).
    { unfold user_of; cbn [users]. rewrite filter_app, Hnone. cbn.
      now rewrite Z.eqb_refl. }
    split; [eauto|]. split; [now rewrite register_eq, Hnew|].
    split; [|split; [discriminate|]].
    + cbn [users]. rewrite filter_app, Hnone. cbn. now rewrite Z.eqb_refl.
    + intros _. unfold balance. now rewrite Hnew.
Qed.

Lemma register_idempotent_witness :
  let st1 := exec (register 1 (Some "A") "2024-01-01T00:00:00") empty_db in
  register 1 (Some "B") "2024-01-01T00:00:09" st1
    = (Ok "Already registered", st1) /\
  List.length (filter (fun u => User.telegram_id u =? 1) (users st1))
    = 1%nat.
Proof.
  intros st1.
  destruct (register_idempotent empty_db 1 (Some "A") (Some "B")
              "2024-01-01T00:00:00" "2024-01-01T00:00:09" wf_empty)
    as (_ & H2 & H3 & _); [reflexivity|].
  split; [exact H2|exact H3].
Defined.

(** ** The listing of open requests *)













(** Two requests created at the same instant are listed in the order of
    their ids. *)
Example open_listing_rowid_order :
  exists out,
    list_open_requests (run empty_db same_instant)
      = (Ok out, run empty_db same_instant) /\
    map ReqOut.id out = [1; 2] /\
    map ReqOut.created_at out
      = ["2024-01-01T00:00:01"; "2024-01-01T00:00:01"].
Proof. eexists. split; [vm_compute; reflexivity|split; reflexivity]. Qed.



(** ** Points are conserved *)

Lemma sum_snoc (l : list Z) (x : Z) :
  fold_right Z.add 0 (l ++ [x]) = fold_right Z.add 0 l + x.
Proof.
  induction l as [|a l IH]; cbn [app fold_right]; lia.
Qed.

Lemma map_update_absent {A} (key : A -> Z) (f : A -> A) (k : Z) (l : list A) :
  ~ In k (map key l) ->
  map (fun y => if key y =? k then f y else y) l = l.
Proof.
  induction l as [|a l IH]; cbn [map]; intros Hk; [reflexivity|].
  destruct (key a =? k) eqn:E.
  - exfalso. apply Hk. left. now apply Z.eqb_eq.
  - f_equal. apply IH. intro H. apply Hk. now right.
Qed.

(** An UPDATE ... WHERE key = ? on a table with distinct keys moves the sum
    of a column by what it does to the one row it touches. *)
Lemma sum_update_key {A} (key val : A -> Z) (f : A -> A) (l : list A) (x : A) :
  NoDup (map key l) -> In x l ->
  fold_right Z.add 0
    (map val (map (fun y => if key y =? key x then f y else y) l))
  = fold_right Z.add 0 (map val l) + (val (f x) - val x).
Proof.
  induction l as [|a l IH]; intros Hnd Hin; [contradiction|].
  cbn [map] in Hnd. inversion Hnd as [|? ? Hnotin Hnd']; subst.
  cbn [map fold_right]. destruct Hin as [->|Hin].
  - rewrite Z.eqb_refl, map_update_absent by exact Hnotin. lia.
  - destruct (key a =? key x) eqn:E.
    + exfalso. apply Hnotin. apply Z.eqb_eq in E. rewrite E.
      now apply in_map.
    + rewrite IH by assumption. lia.
Qed.

Lemma points_add_exact d u :
  exact_add (User.points_col u) d = true ->
  User.points (User.add_points d u) = User.points u + d.
Proof.
  intros H. unfold User.points, User.add_points. cbn [User.points_col].
  now rewrite sql_add_exact.
Qed.

Lemma total_create_request st tg uid region proof p now :
  wf st ->
  exact st (CreateRequest tg uid region proof p now) = true ->
  total_points (exec (create_request tg uid region proof p now) st)
  = total_points st.
Proof.
  intros (Hid & _ & _) Hex. unfold exec. rewrite create_request_eq.
  destruct ((1 <=? p) && (p <=? 100)); [|reflexivity].
  destruct (user_of st tg) as [u|] eqn:Hu;
    [|destruct (int64 tg); reflexivity].
  destruct (User.points u <? p); [reflexivity|]. cbn [snd].
  cbn [exact] in Hex. rewrite Hu in Hex.
  apply user_of_in in Hu as [Hin _].
  unfold total_points, sum_balances, sum_escrow, credit_id;
    cbn [users requests].
  rewrite (sum_update_key User.id User.points (User.add_points (- p)))
    by assumption.
  rewrite points_add_exact by assumption.
  rewrite map_app. cbn [map]. rewrite sum_snoc. cbn. lia.
Qed.

Lemma total_claim st tg rid :
  wf st -> total_points (exec (claim tg rid) st) = total_points st.
Proof.
  intros (_ & _ & Hid). unfold exec. rewrite claim_eq.
  destruct (request_of st rid) as [r|] eqn:Hr;
    [|destruct (int64 rid); reflexivity].
  destruct (Request.status r =? "open")%string eqn:Hst; [|reflexivity].
  cbn [negb].
  destruct (user_of st tg) as [c|]; [|destruct (int64 tg); reflexivity].
  destruct (User.id c =? Request.owner_id r); [reflexivity|]. cbn [snd].
  apply request_of_in in Hr as [Hin _].
  unfold total_points, sum_balances, sum_escrow, claim_row;
    cbn [users requests].
  rewrite (sum_update_key Request.id escrowed
             (Request.set_claimed (User.id c))) by assumption.
  unfold escrowed at 2 3. rewrite Hst. cbn. lia.
Qed.

Lemma total_confirm st tg rid proof now :
  wf st ->
  exact st (Confirm tg rid proof now) = true ->
  total_points (exec (confirm tg rid proof now) st) = total_points st.
Proof.
  intros (Hid & _ & Hrid) Hex. unfold exec. rewrite confirm_eq.
  cbn [exact] in Hex.
  destruct (request_of st rid) as [r|] eqn:Hr;
    [|destruct (int64 rid); reflexivity].
  destruct (Request.status r =? "claimed")%string eqn:Hst; [|reflexivity].
  cbn [negb].
  destruct (user_of st tg) as [c|] eqn:Hc;
    [|destruct (int64 tg); reflexivity].
  destruct (differs_from _ _); [reflexivity|]. cbn [snd].
  apply request_of_in in Hr as [Hin _]. apply user_of_in in Hc as [Hcin _].
  unfold total_points, sum_balances, sum_escrow, complete_row, credit_id;
    cbn [users requests].
  rewrite (sum_update_key User.id User.points
             (User.add_points (Request.points_requested r))) by assumption.
  rewrite points_add_exact by assumption.
  rewrite (sum_update_key Request.id escrowed
             (Request.set_completed proof now)) by assumption.
  unfold escrowed at 2 3. rewrite Hst, orb_true_r. cbn. lia.
Qed.

(** The two endpoints outside the life of a request: register adds a row
    holding zero, an admin call that goes through adds its delta. *)
Lemma total_register st tg name now :
  total_points (exec (register tg name now) st) = total_points st.
Proof.
  unfold exec. rewrite register_eq.
  destruct (user_of st tg); [reflexivity|].
  destruct (int64 tg); [|reflexivity]. cbn [snd].
  unfold total_points, sum_balances, sum_escrow; cbn [users requests].
  rewrite map_app. cbn [map]. rewrite sum_snoc. cbn. lia.
Qed.

Lemma total_admin_add_points st tg delta u :
  wf st -> user_of st tg = Some u -> int64 delta = true ->
  exact_add (User.points_col u) delta = true ->
  total_points (exec (admin_add_points tg delta secret0) st)
  = total_points st + delta.
Proof.
  intros (_ & Htg & _) Hu Hd Hex. unfold exec, secret0.
  rewrite admin_add_points_eq, String.eqb_refl, Hu, Hd. cbn [negb snd].
  apply user_of_in in Hu as [Hin <-].
  unfold total_points, sum_balances, sum_escrow, credit_tg;
    cbn [users requests].
  rewrite (sum_update_key User.telegram_id User.points
             (User.add_points delta)) by assumption.
  rewrite points_add_exact by assumption. lia.
Qed.

(** Counterexample to C10 as stated: the claimer holds the largest 64-bit
    integer and the request stakes 30; confirm empties the stake and leaves
    the double 2^63 in the claimer's column, so the sum of balances and
    stakes drops by 29. *)
Lemma confirm_loses_points_on_overflow :
  let st := run empty_db scenario_rich_claimer in
  let st' := exec (confirm 2 1 "https://b/" "2024-01-01T00:00:03") st in
  wf st /\
  total_points st = max_int64 + 50 /\
  total_points st' = max_int64 + 21 /\
  total_points st' <> total_points st.
Proof.
  split; [apply wf_run, wf_empty|].
  vm_compute. repeat split. discriminate.
Qed.

(** C10 (amended): under the schema's constraints, the sum of all balances
    plus the points_requested of every open or claimed request is the same
    after a create_request, a claim or a confirm as before it, whether the
    call returns or raises, provided the balance that create_request or
    confirm updates is held as an integer and the result still fits 64
    bits. *)
Theorem lifecycle_conserves_points st :
  wf st ->
  (forall tg uid region proof p now,
     exact st (CreateRequest tg uid region proof p now) = true ->
     total_points (exec (create_request tg uid region proof p now) st)
     = total_points st) /\
  (forall tg rid,
     total_points (exec (claim tg rid) st) = total_points st) /\
  (forall tg rid proof now,
     exact st (Confirm tg rid proof now) = true ->
     total_points (exec (confirm tg rid proof now) st) = total_points st).
Proof.
  intros Hwf. repeat split; intros.
  - now apply total_create_request.
  - now apply total_claim.
  - now apply total_confirm.
Qed.

Lemma lifecycle_conserves_points_witness :
  wf (run empty_db (firstn 2 scenario)) /\
  total_points (run empty_db (firstn 2 scenario)) = 50 /\
  total_points (run empty_db scenario) = 50.
Proof.
  assert (W : forall ops, wf (run empty_db ops))
    by (intros; apply wf_run, wf_empty).
  split; [apply W|]. split; [reflexivity|].
  destruct (lifecycle_conserves_points (run empty_db (firstn 5 scenario))
              (W _)) as (_ & _ & H3).
  destruct (lifecycle_conserves_points (run empty_db (firstn 4 scenario))
              (W _)) as (_ & H2 & _).
  destruct (lifecycle_conserves_points (run empty_db (firstn 2 scenario))
              (W _)) as (H1 & _ & _).
  change (run empty_db scenario)
    with (exec (confirm 2 1 "https://b/" "2024-01-01T00:00:03")
            (run empty_db (firstn 5 scenario))).
  rewrite H3 by reflexivity.
  change (run empty_db (firstn 5 scenario))
    with (exec (claim 2 1) (run empty_db (firstn 4 scenario))).
  rewrite H2.
  transitivity
    (total_points
       (exec (create_request 1 "2476897412" "ind" "https://a/" 30
                "2024-01-01T00:00:01") (run empty_db (firstn 2 scenario)))).
  - reflexivity.
  - rewrite H1 by reflexivity. reflexivity.
Defined.

(** ** A call that raises leaves the database alone *)

(** X1: whichever endpoint is called and with whatever arguments, if the call
    raises (an HTTPException or the validation error) the database after it
    is the database before it: every raise of the program comes before its
    first write. *)
Theorem raise_changes_nothing (st : db) (o : op) :
  failed st o = true -> step st o = st.
Proof.
  destruct o; unfold failed, raised, step, exec;
    autorewrite with endpoints; split_inner; cbn [fst snd];
    intros H; try discriminate H; reflexivity.
Qed.

Lemma raise_changes_nothing_witness :
  let st := run empty_db scenario_open in
  failed st (Claim 1 1) = true /\ step st (Claim 1 1) = st.
Proof.
  intros st. split; [reflexivity|].
  apply (raise_changes_nothing st (Claim 1 1)). reflexivity.
Defined.

(** ** Registering, then looking the user up *)

Lemma user_of_snoc st reqs u tg :
  user_of (mkdb (users st ++ [u]) reqs) tg =
  match user_of st tg with
  | Some v => Some v
  | None => if User.telegram_id u =? tg then Some u else None
  end.
Proof.
  unfold user_of; cbn [users]. rewrite filter_app.
  destruct (filter _ (users st)); cbn; [|reflexivity].
  destruct (User.telegram_id u =? tg); reflexivity.
Qed.

(** X2: registering a telegram id that fits 64 bits and is not in the table
    returns "Registered" and appends one row under a fresh id, with 0
    points, is_vip 0, the given username (or the empty string) and the time
    of the call; right after, me returns that row and get_points returns 0;
    the lookups of every other telegram id and the requests table are
    unchanged. *)
Theorem register_then_lookup st tg name now :
  int64 tg = true ->
  user_of st tg = None ->
  let st' := exec (register tg name now) st in
  let u := User.mk (next_id (map User.id (users st))) tg (or_empty name)
             0 0 now in
  register tg name now st = (Ok "Registered", st') /\
  users st' = users st ++ [u] /\
  ~ In (User.id u) (map User.id (users st)) /\
  me tg st' = (Ok u, st') /\
  get_points tg st' = (Ok 0, st') /\
  (forall tg', tg' <> tg -> user_of st' tg' = user_of st tg') /\
  requests st' = requests st.
Proof.
  intros Hint Hnone st' u. subst st'. unfold exec.
  rewrite register_eq, Hnone, Hint. cbn [snd].
  change (new_user st tg (or_empty name) now) with u.
  assert (Hu : user_of (mkdb (users st ++ [u]) (requests st)) tg = Some u).
  { rewrite user_of_snoc, Hnone. cbn. now rewrite Z.eqb_refl. }
  repeat split.
  - apply next_id_fresh.
  - now rewrite me_eq, Hu.
  - now rewrite get_points_eq, Hu.
  - intros tg' Hne. rewrite user_of_snoc.
    destruct (user_of st tg'); [reflexivity|]. cbn.
    now replace (tg =? tg') with false by (symmetry; apply Z.eqb_neq; lia).
Qed.

Lemma register_then_lookup_witness :
  let st' := exec (register 3 None "2024-01-02T00:00:00")
               (run empty_db scenario) in
  get_points 3 st' = (Ok 0, st') /\
  user_of st' 1 = user_of (run empty_db scenario) 1.
Proof.
  intros st'.
  destruct (register_then_lookup (run empty_db scenario) 3 None
              "2024-01-02T00:00:00") as (_ & _ & _ & _ & Hg & Ho & _).
  - reflexivity.
  - reflexivity.
  - split; [exact Hg|apply Ho; lia].
Defined.

(** ** The admin endpoint *)

Lemma user_of_credit_tg st reqs d t tg :
  user_of (mkdb (map (credit_tg d t) (users st)) reqs) tg =
  option_map (credit_tg d t) (user_of st tg).
Proof.
  unfold user_of; cbn [users].
  apply hd_filter_map. intros; now rewrite credit_tg_tg.
Qed.

(** The run the overflow of SQLite is best seen on: 50, plus the largest
    64-bit integer, is held as the double 2^63; minus the same integer it is
    0, not 50. *)
Example admin_round_trip_past_64_bits :
  let st := run empty_db scenario_real_owner in
  get_points 1 st = (Ok (2 ^ 63), st) /\
  get_points 1 (exec (admin_add_points 1 (- max_int64) secret0) st)
    = (Ok 0, exec (admin_add_points 1 (- max_int64) secret0) st) /\
  admin_add_points 1 (2 ^ 63) secret0 st = (Raise OverflowError, st).
Proof. vm_compute. repeat split. Qed.

(** X3: admin_add_points tests the secret before anything else (401
    "Unauthorized", also for an unknown user), then the user (404 "User not
    found" for an unknown telegram id that fits 64 bits); for a registered
    user a delta that does not fit 64 bits raises OverflowError and changes
    nothing, and any other delta, of either sign, goes through and changes
    nothing but that user's points; when the balance is held as an integer
    and the sum fits 64 bits, get_points then returns the old points plus
    the delta. *)
Theorem admin_add_points_outcomes st tg delta secret :
  (secret <> "CHANGE_THIS_SECRET" ->
   admin_add_points tg delta secret st
     = (Raise (HTTPException 401 "Unauthorized"), st)) /\
  (secret = "CHANGE_THIS_SECRET" -> user_of st tg = None ->
   int64 tg = true ->
   admin_add_points tg delta secret st
     = (Raise (HTTPException 404 "User not found"), st)) /\
  (secret = "CHANGE_THIS_SECRET" ->
   forall u, user_of st tg = Some u -> int64 delta = false ->
   admin_add_points tg delta secret st = (Raise OverflowError, st)) /\
  (secret = "CHANGE_THIS_SECRET" ->
   forall u, user_of st tg = Some u -> int64 delta = true ->
   let st' := exec (admin_add_points tg delta secret) st in
   admin_add_points tg delta secret st = (Ok "Points added successfully", st')
   /\ (exact_add (User.points_col u) delta = true ->
       get_points tg st' = (Ok (User.points u + delta), st'))
   /\ (forall tg', tg' <> tg -> user_of st' tg' = user_of st tg')
   /\ requests st' = requests st).
Proof.
  split; [|split; [|split]].
  - intros Hs. rewrite admin_add_points_eq.
    now replace (secret =? "CHANGE_THIS_SECRET")%string with false
      by (symmetry; now apply String.eqb_neq).
  - intros -> Hu Hint.
    now rewrite admin_add_points_eq, String.eqb_refl, Hu, Hint.
  - intros -> u Hu Hd.
    now rewrite admin_add_points_eq, String.eqb_refl, Hu, Hd.
  - intros -> u Hu Hd st'. subst st'. unfold exec.
    rewrite admin_add_points_eq, String.eqb_refl, Hu, Hd. cbn [negb snd].
    split; [reflexivity|]. split; [|split; [|reflexivity]].
    + intros Hex. rewrite get_points_eq, user_of_credit_tg, Hu.
      cbn [option_map]. apply user_of_in in Hu as [_ Htg].
      unfold credit_tg. apply Z.eqb_eq in Htg. rewrite Htg.
      now rewrite points_add_exact.
    + intros tg' Hne. rewrite user_of_credit_tg.
      destruct (user_of st tg') as [v|] eqn:Ev; [|reflexivity]. cbn.
      apply user_of_in in Ev as [_ Hv]. unfold credit_tg.
      now replace (User.telegram_id v =? tg) with false
        by (symmetry; apply Z.eqb_neq; lia).
Qed.

Lemma admin_add_points_outcomes_witness :
  (admin_add_points 9 5 "guess" empty_db
     = (Raise (HTTPException 401 "Unauthorized"), empty_db)) /\
  (admin_add_points 9 5 secret0 empty_db
     = (Raise (HTTPException 404 "User not found"), empty_db)) /\
  (let st := run empty_db scenario in
   admin_add_points 1 (2 ^ 63) secret0 st = (Raise OverflowError, st)) /\
  (let st := run empty_db scenario in
   let st' := exec (admin_add_points 1 (-7) secret0) st in
   get_points 1 st' = (Ok (20 + -7), st')).
Proof.
  split; [|split; [|split]].
  - apply (admin_add_points_outcomes empty_db 9 5 "guess"). discriminate.
  - apply (admin_add_points_outcomes empty_db 9 5 secret0); reflexivity.
  - intros st.
    apply (admin_add_points_outcomes st 1 (2 ^ 63) secret0) with
      (u := User.mk 1 1 "A" 20 0 "2024-01-01T00:00:00"); reflexivity.
  - intros st st'.
    destruct (admin_add_points_outcomes st 1 (-7) secret0)
      as (_ & _ & _ & H).
    apply (H eq_refl (User.mk 1 1 "A" 20 0 "2024-01-01T00:00:00"));
      reflexivity.
Defined.

Lemma credit_tg_other d tg u :
  User.telegram_id u <> tg -> credit_tg d tg u = u.
Proof.
  intros H. unfold credit_tg.
  now replace (User.telegram_id u =? tg) with false
    by (symmetry; now apply Z.eqb_neq).
Qed.

Lemma credit_tg_int d tg u i :
  User.telegram_id u = tg -> User.points_col u = Int i ->
  int64 (i + d) = true ->
  credit_tg d tg u
  = User.mk (User.id u) tg (User.username u) (Int (i + d)) (User.is_vip u)
      (User.created_at u).
Proof.
  intros Ht Hc Hd. unfold credit_tg, User.add_points.
  rewrite Ht, Z.eqb_refl, Hc. cbn [sql_add]. now rewrite Hd.
Qed.

(** X4: with the secret, under the schema's constraints, for a user whose
    balance is held as a 64-bit integer: two admin adjustments that each
    keep the balance within 64 bits amount to one adjustment by the sum of
    the deltas, and an adjustment followed by its opposite gives back the
    database it started from.  (Past 64 bits neither holds, see
    [admin_round_trip_past_64_bits].) *)
Theorem admin_add_points_compose st tg d1 d2 u i :
  wf st -> user_of st tg = Some u ->
  User.points_col u = Int i -> int64 i = true ->
  int64 d1 = true -> int64 (i + d1) = true ->
  (int64 d2 = true -> int64 (d1 + d2) = true ->
   int64 (i + d1 + d2) = true ->
   exec (admin_add_points tg d2 secret0)
        (exec (admin_add_points tg d1 secret0) st)
   = exec (admin_add_points tg (d1 + d2) secret0) st) /\
  (int64 (- d1) = true ->
   exec (admin_add_points tg (- d1) secret0)
        (exec (admin_add_points tg d1 secret0) st)
   = st).
Proof.
  intros (_ & Htg & _) Hu Hcol Hi Hd1 Hid1.
  pose proof (user_of_in _ _ _ Hu) as [Hin Hut].
  assert (Hone : forall v, In v (users st) ->
                   User.telegram_id v = tg -> v = u).
  { intros v Hv Hvt.
    eapply (NoDup_key_inj User.telegram_id); eauto. congruence. }
  assert (Hfirst : exec (admin_add_points tg d1 secret0) st
                   = mkdb (map (credit_tg d1 tg) (users st)) (requests st)).
  { unfold exec, secret0.
    now rewrite admin_add_points_eq, String.eqb_refl, Hu, Hd1. }
  assert (Hsecond : forall d, int64 d = true ->
    exec (admin_add_points tg d secret0)
         (mkdb (map (credit_tg d1 tg) (users st)) (requests st))
    = mkdb (map (credit_tg d tg) (map (credit_tg d1 tg) (users st)))
           (requests st)).
  { intros d Hd. unfold exec, secret0.
    now rewrite admin_add_points_eq, String.eqb_refl, user_of_credit_tg, Hu,
      Hd. }
  split.
  - intros Hd2 Hd12 Hid12. rewrite Hfirst, Hsecond by assumption.
    unfold exec, secret0.
    rewrite admin_add_points_eq, String.eqb_refl, Hu, Hd12. cbn [negb snd].
    f_equal. rewrite map_map. apply map_ext_in. intros v Hv.
    destruct (Z.eq_dec (User.telegram_id v) tg) as [Hvt|Hvt].
    + rewrite (Hone v Hv Hvt).
      assert (Hid12' : int64 (i + (d1 + d2)) = true)
        by now rewrite Z.add_assoc.
      rewrite (credit_tg_int d1 tg u i) by assumption.
      rewrite (credit_tg_int (d1 + d2) tg u i) by assumption.
      rewrite (credit_tg_int d2 tg _ (i + d1)) by (cbn; auto).
      cbn. now rewrite Z.add_assoc.
    + now rewrite !credit_tg_other
        by (rewrite ?credit_tg_tg; assumption).
  - intros Hnd. rewrite Hfirst, Hsecond by assumption.
    destruct st as [us rs]; cbn [users requests] in *. f_equal.
    rewrite map_map. rewrite <- (map_id us) at 2. apply map_ext_in.
    intros v Hv.
    destruct (Z.eq_dec (User.telegram_id v) tg) as [Hvt|Hvt].
    + rewrite (Hone v Hv Hvt).
      assert (Hback : int64 (i + d1 + - d1) = true)
        by now replace (i + d1 + - d1) with i by lia.
      rewrite (credit_tg_int d1 tg u i) by assumption.
      rewrite (credit_tg_int (- d1) tg _ (i + d1)) by (cbn; auto).
      cbn. replace (i + d1 + - d1) with i by lia.
      destruct u; cbn in *. now subst.
    + now rewrite !credit_tg_other
        by (rewrite ?credit_tg_tg; assumption).
Qed.

Lemma admin_add_points_compose_witness :
  let st := run empty_db scenario in
  exec (admin_add_points 1 (-5) secret0)
       (exec (admin_add_points 1 5 secret0) st)
  = st.
Proof.
  intros st.
  apply (admin_add_points_compose st 1 5 0
           (User.mk 1 1 "A" 20 0 "2024-01-01T00:00:00") 20);
    try reflexivity.
  apply wf_run, wf_empty.
Defined.

(** ** The outcomes of claim and confirm, test by test *)

(** X5: claim tests, in this order, that the request exists (404 "Request not
    found" for an absent id that fits 64 bits, OverflowError for one that
    does not), that it is open (400 "Request not open", whoever calls, even
    an unregistered caller), and that the caller is registered (404 "Claimer
    not registered" for an unknown telegram id that fits 64 bits,
    OverflowError for one that does not); it goes through exactly when the
    request exists and is open and the caller is a registered user other
    than the owner. *)
Theorem claim_outcomes st tg rid :
  (request_of st rid = None ->
   claim tg rid st
   = if int64 rid
     then (Raise (HTTPException 404 "Request not found"), st)
     else (Raise OverflowError, st)) /\
  (forall r, request_of st rid = Some r -> Request.status r <> "open" ->
   claim tg rid st = (Raise (HTTPException 400 "Request not open"), st)) /\
  (forall r, request_of st rid = Some r -> Request.status r = "open" ->
   user_of st tg = None ->
   claim tg rid st
   = if int64 tg
     then (Raise (HTTPException 404 "Claimer not registered"), st)
     else (Raise OverflowError, st)) /\
  (raised (claim tg rid) st = false <->
   exists r c,
     request_of st rid = Some r /\ Request.status r = "open" /\
     user_of st tg = Some c /\ User.id c <> Request.owner_id r).
Proof.
  unfold raised. rewrite claim_eq. split; [|split; [|split]].
  - now intros ->.
  - intros r -> Hs.
    now replace (Request.status r =? "open")%string with false
      by (symmetry; now apply String.eqb_neq).
  - intros r -> -> ->. reflexivity.
  - destruct (request_of st rid) as [r|]; cbn [fst].
    2:{ split; [destruct (int64 rid); discriminate|].
        intros (? & ? & ? & _); discriminate. }
    destruct (Request.status r =? "open")%string eqn:Hs; cbn [negb fst].
    + apply String.eqb_eq in Hs.
      destruct (user_of st tg) as [c|]; cbn [fst].
      2:{ split; [destruct (int64 tg); discriminate|].
          intros (? & ? & _ & _ & ? & _); discriminate. }
      destruct (User.id c =? Request.owner_id r) eqn:Ho; cbn [fst].
      * apply Z.eqb_eq in Ho. split; [discriminate|].
        intros (r' & c' & Hr & _ & Hc & Hne). congruence.
      * apply Z.eqb_neq in Ho. split; [|reflexivity].
        intros _. exists r, c. auto.
    + apply String.eqb_neq in Hs. split; [discriminate|].
      intros (r' & c' & Hr & Hopen & _). congruence.
Qed.

Lemma claim_outcomes_witness :
  let st := run empty_db scenario_claimed in
  claim 99 1 st = (Raise (HTTPException 400 "Request not open"), st) /\
  claim 2 5 st = (Raise (HTTPException 404 "Request not found"), st) /\
  claim 2 (2 ^ 63) st = (Raise OverflowError, st).
Proof.
  intros st. split; [|split].
  - apply (claim_outcomes st 99 1) with
      (r := Request.mk 1 1 "2476897412" "IND" "https://a/" 30 "claimed"
              "2024-01-01T00:00:01" (Some 2) None None);
      [reflexivity|discriminate].
  - apply (claim_outcomes st 2 5). reflexivity.
  - apply (claim_outcomes st 2 (2 ^ 63)). reflexivity.
Defined.

(** X6: confirm tests, in this order, that the request exists (404 "Request
    not found" for an absent id that fits 64 bits, OverflowError for one
    that does not), that it is claimed (400 "Request not in claimed state",
    whoever calls), and that the caller is registered (404 "Claimer not
    registered" for an unknown telegram id that fits 64 bits, OverflowError
    for one that does not); it goes through exactly when the request exists
    and is claimed and the caller is the registered user whose id is in
    claimed_by. *)
Theorem confirm_outcomes st tg rid proof now :
  (request_of st rid = None ->
   confirm tg rid proof now st
   = if int64 rid
     then (Raise (HTTPException 404 "Request not found"), st)
     else (Raise OverflowError, st)) /\
  (forall r, request_of st rid = Some r -> Request.status r <> "claimed" ->
   confirm tg rid proof now st
     = (Raise (HTTPException 400 "Request not in claimed state"), st)) /\
  (forall r, request_of st rid = Some r -> Request.status r = "claimed" ->
   user_of st tg = None ->
   confirm tg rid proof now st
   = if int64 tg
     then (Raise (HTTPException 404 "Claimer not registered"), st)
     else (Raise OverflowError, st)) /\
  (raised (confirm tg rid proof now) st = false <->
   exists r c,
     request_of st rid = Some r /\ Request.status r = "claimed" /\
     user_of st tg = Some c /\ Request.claimed_by r = Some (User.id c)).
Proof.
  unfold raised. rewrite confirm_eq. split; [|split; [|split]].
  - now intros ->.
  - intros r -> Hs.
    now replace (Request.status r =? "claimed")%string with false
      by (symmetry; now apply String.eqb_neq).
  - intros r -> -> ->. reflexivity.
  - destruct (request_of st rid) as [r|]; cbn [fst].
    2:{ split; [destruct (int64 rid); discriminate|].
        intros (? & ? & ? & _); discriminate. }
    destruct (Request.status r =? "claimed")%string eqn:Hs; cbn [negb fst].
    + apply String.eqb_eq in Hs.
      destruct (user_of st tg) as [c|]; cbn [fst].
      2:{ split; [destruct (int64 tg); discriminate|].
          intros (? & ? & _ & _ & ? & _); discriminate. }
      unfold differs_from.
      destruct (Request.claimed_by r) as [x|] eqn:Hby; cbn [fst].
      * destruct (User.id c =? x) eqn:Hx; cbn [negb fst].
        -- apply Z.eqb_eq in Hx. split; [|reflexivity].
           intros _. exists r, c. subst x. auto.
        -- apply Z.eqb_neq in Hx. split; [discriminate|].
           intros (r' & c' & Hr & _ & Hc & Hby'). congruence.
      * split; [discriminate|].
        intros (r' & c' & Hr & _ & Hc & Hby'). congruence.
    + apply String.eqb_neq in Hs. split; [discriminate|].
      intros (r' & c' & Hr & Hcl & _). congruence.
Qed.

Lemma confirm_outcomes_witness :
  let st := run empty_db scenario_open in
  confirm 99 1 "https://b/" "2024-01-01T00:00:03" st
    = (Raise (HTTPException 400 "Request not in claimed state"), st) /\
  confirm 2 5 "https://b/" "2024-01-01T00:00:03" st
    = (Raise (HTTPException 404 "Request not found"), st) /\
  confirm 2 (2 ^ 63) "https://b/" "2024-01-01T00:00:03" st
    = (Raise OverflowError, st).
Proof.
  intros st. split; [|split].
  - apply (confirm_outcomes st 99 1) with
      (r := Request.mk 1 1 "2476897412" "IND" "https://a/" 30 "open"
              "2024-01-01T00:00:01" None None None);
      [reflexivity|discriminate].
  - apply (confirm_outcomes st 2 5). reflexivity.
  - apply (confirm_outcomes st 2 (2 ^ 63)). reflexivity.
Defined.

(** ** User rows across calls *)

Lemma same_identity_credit_id d i u : same_identity u (credit_id d i u).
Proof.
  unfold same_identity, credit_id. destruct (_ =? _); cbn; auto 6.
Qed.

Lemma same_identity_credit_tg d t u : same_identity u (credit_tg d t u).
Proof.
  unfold same_identity, credit_tg. destruct (_ =? _); cbn; auto 6.
Qed.

Lemma same_identity_refl u : same_identity u u.
Proof. unfold same_identity. auto 6. Qed.

Lemma same_identity_trans u v w :
  same_identity u v -> same_identity v w -> same_identity u w.
Proof.
  unfold same_identity.
  intros (A1 & A2 & A3 & A4 & A5) (B1 & B2 & B3 & B4 & B5).
  repeat split; congruence.
Qed.

Lemma user_of_step st o tg u :
  user_of st tg = Some u ->
  exists u', user_of (step st o) tg = Some u' /\ same_identity u u'.
Proof.
  intros Hu.
  assert (Hsame : exists u', user_of st tg = Some u' /\ same_identity u u')
    by (exists u; auto using same_identity_refl).
  step_cases o; try exact Hsame; clear Hsame.
  - exists u. split; [|apply same_identity_refl].
    now rewrite user_of_snoc, Hu.
  - rewrite user_of_credit_id, Hu. cbn. eexists. split; [reflexivity|].
    apply same_identity_credit_id.
  - rewrite user_of_credit_id, Hu. cbn. eexists. split; [reflexivity|].
    apply same_identity_credit_id.
  - rewrite user_of_credit_tg, Hu. cbn. eexists. split; [reflexivity|].
    apply same_identity_credit_tg.
Qed.

Lemma user_of_run ops : forall st tg u,
  user_of st tg = Some u ->
  exists u', user_of (run st ops) tg = Some u' /\ same_identity u u'.
Proof.
  induction ops as [|o ops IH]; intros st tg u Hu; simpl.
  - exists u. auto using same_identity_refl.
  - destruct (user_of_step st o tg u Hu) as (u1 & H1 & S1).
    destruct (IH _ _ _ H1) as (u2 & H2 & S2).
    exists u2. eauto using same_identity_trans.
Qed.

(** X7: a user that me returns stays registered through any sequence of
    calls: me keeps returning a row for that telegram id, with the same id,
    telegram_id, username, is_vip and created_at (only points can differ);
    no endpoint deletes or renames a user. *)
Theorem user_identity_fixed st ops tg u :
  me tg st = (Ok u, st) ->
  exists u',
    me tg (run st ops) = (Ok u', run st ops) /\ same_identity u u'.
Proof.
  rewrite me_eq. intros H.
  destruct (user_of st tg) as [v|] eqn:Hv;
    [|destruct (int64 tg); discriminate].
  injection H as <-.
  destruct (user_of_run ops st tg v Hv) as (u' & Hu' & Hs).
  exists u'. split; [|exact Hs]. now rewrite me_eq, Hu'.
Qed.

Lemma user_identity_fixed_witness :
  exists u',
    me 1 (run (run empty_db (firstn 2 scenario)) (skipn 2 scenario))
      = (Ok u', run (run empty_db (firstn 2 scenario)) (skipn 2 scenario)) /\
    same_identity (User.mk 1 1 "A" 50 0 "2024-01-01T00:00:00") u'.
Proof.
  apply (user_identity_fixed (run empty_db (firstn 2 scenario))
           (skipn 2 scenario) 1). reflexivity.
Defined.

Lemma is_vip_step st o :
  Forall (fun u => User.is_vip u = 0) (users st) ->
  Forall (fun u => User.is_vip u = 0) (users (step st o)).
Proof.
  intros H. step_cases o; try exact H; cbn [users].
  - apply Forall_app. split; [exact H|]. now repeat constructor.
  - apply Forall_map. eapply Forall_impl; [|exact H]. intros u Hu.
    now rewrite (proj1 (proj2 (proj2 (proj2 (same_identity_credit_id _ _ u))))).
  - apply Forall_map. eapply Forall_impl; [|exact H]. intros u Hu.
    now rewrite (proj1 (proj2 (proj2 (proj2 (same_identity_credit_id _ _ u))))).
  - apply Forall_map. eapply Forall_impl; [|exact H]. intros u Hu.
    now rewrite (proj1 (proj2 (proj2 (proj2 (same_identity_credit_tg _ _ u))))).
Qed.

(** X8: no endpoint ever sets is_vip: starting from the empty database, after
    any sequence of calls every user row has is_vip = 0 (so me reports
    is_vip false for everybody). *)
Theorem is_vip_never_set (ops : list op) :
  Forall (fun u => User.is_vip u = 0) (users (run empty_db ops)).
Proof.
  assert (H : forall st, Forall (fun u => User.is_vip u = 0) (users st) ->
                         Forall (fun u => User.is_vip u = 0)
                                (users (run st ops))).
  { induction ops as [|o ops IH]; intros st Hst; simpl; [exact Hst|].
    apply IH, is_vip_step, Hst. }
  apply H. constructor.
Qed.

(** ** Rowids *)

Lemma fold_max_snoc (l : list Z) (x : Z) :
  fold_right Z.max 0 (l ++ [x]) = Z.max x (fold_right Z.max 0 l).
Proof.
  induction l as [|a l IH]; cbn [app fold_right]; [lia|].
  rewrite IH. lia.
Qed.

Lemma next_id_counted (n : nat) :
  next_id (map Z.of_nat (seq 1 n)) = Z.of_nat (S n).
Proof.
  unfold next_id.
  assert (H : fold_right Z.max 0 (map Z.of_nat (seq 1 n)) = Z.of_nat n).
  { induction n as [|n IH]; [reflexivity|].
    rewrite seq_S, map_app. cbn [map]. rewrite fold_max_snoc, IH. lia. }
  rewrite H. lia.
Qed.

Lemma counted_from_one_snoc (ids : list Z) :
  counted_from_one ids -> counted_from_one (ids ++ [next_id ids]).
Proof.
  unfold counted_from_one. intros H.
  rewrite length_app. cbn [List.length].
  rewrite Nat.add_1_r, seq_S, map_app. cbn [map].
  rewrite H at 2. rewrite next_id_counted, <- H. reflexivity.
Qed.

Lemma counted_step st o :
  counted_from_one (map User.id (users st)) /\
  counted_from_one (map Request.id (requests st)) ->
  counted_from_one (map User.id (users (step st o))) /\
  counted_from_one (map Request.id (requests (step st o))).
Proof.
  intros [Hu Hr].
  step_cases o; try (split; assumption); cbn [users requests];
    rewrite ?map_app, ?(map_key_update User.id), ?(map_key_update Request.id)
      by auto using credit_id_id, credit_tg_id, claim_row_id, complete_row_id;
    cbn [map]; split; auto; now apply counted_from_one_snoc.
Qed.

(** X9: rowids count from one in both tables: starting from the empty
    database, after any sequence of calls the users have ids 1, 2, ..., n in
    registration order and the requests have ids 1, 2, ..., m in creation
    order. *)
Theorem rowids_count_from_one (ops : list op) :
  counted_from_one (map User.id (users (run empty_db ops))) /\
  counted_from_one (map Request.id (requests (run empty_db ops))).
Proof.
  assert (H : forall st,
    counted_from_one (map User.id (users st)) /\
    counted_from_one (map Request.id (requests st)) ->
    counted_from_one (map User.id (users (run st ops))) /\
    counted_from_one (map Request.id (requests (run st ops)))).
  { induction ops as [|o ops IH]; intros st Hst; simpl; [exact Hst|].
    apply IH, counted_step, Hst. }
  apply H. split; reflexivity.
Qed.

(** ** Request rows across calls *)

(** What one call can do to a request: nothing, the claim UPDATE on an open
    row, or the confirm UPDATE on a claimed row. *)
Lemma request_of_step_row st o rid r :
  request_of st rid = Some r ->
  request_of (step st o) rid = Some r \/
  (Request.status r = "open" /\
   exists c, request_of (step st o) rid = Some (Request.set_claimed c r)) \/
  (Request.status r = "claimed" /\
   exists p n,
     request_of (step st o) rid = Some (Request.set_completed p n r)).
Proof.
  intros Hr.
  step_cases o; try (left; exact Hr); unfold request_of in *;
    cbn [requests users].
  - left. now apply hd_filter_app.
  - rewrite hd_filter_map by (intros; now rewrite claim_row_id).
    rewrite Hr. cbn. unfold claim_row.
    destruct (Request.id r =? Request.id r0) eqn:E; [|now left].
    apply Z.eqb_eq in E.
    assert (rid = request_id).
    { apply hd_filter_in in Hr as [_ H1]. apply hd_filter_in in Heqo as [_ H2].
      lia. }
    subst. rewrite Hr in Heqo. injection Heqo as <-.
    apply negb_false_iff, String.eqb_eq in Heqb.
    right. left. eauto.
  - rewrite hd_filter_map by (intros; now rewrite complete_row_id).
    rewrite Hr. cbn. unfold complete_row.
    destruct (Request.id r =? Request.id r0) eqn:E; [|now left].
    apply Z.eqb_eq in E.
    assert (rid = request_id).
    { apply hd_filter_in in Hr as [_ H1]. apply hd_filter_in in Heqo as [_ H2].
      lia. }
    subst. rewrite Hr in Heqo. injection Heqo as <-.
    apply negb_false_iff, String.eqb_eq in Heqb.
    right. right. eauto.
Qed.

Lemma same_terms_refl r : same_terms r r.
Proof. unfold same_terms. auto 8. Qed.

Lemma same_terms_trans a b c :
  same_terms a b -> same_terms b c -> same_terms a c.
Proof.
  unfold same_terms.
  intros (A1 & A2 & A3 & A4 & A5 & A6 & A7) (B1 & B2 & B3 & B4 & B5 & B6 & B7).
  repeat split; congruence.
Qed.

Lemma request_terms_step st o rid r :
  request_of st rid = Some r ->
  exists r', request_of (step st o) rid = Some r' /\ same_terms r r'.
Proof.
  intros Hr.
  destruct (request_of_step_row st o rid r Hr)
    as [H|[[_ (c & H)]|[_ (p & n & H)]]];
    eexists; (split; [exact H|]); unfold same_terms; cbn; auto 8.
Qed.

(** X10: the terms of a request are fixed when it is created: through any
    sequence of calls the request stays in the table under its id with the
    same owner_id, uid, region, proof_url, points_requested and created_at;
    no endpoint deletes a request or edits those columns. *)
Theorem request_terms_fixed st ops rid r :
  request_of st rid = Some r ->
  exists r', request_of (run st ops) rid = Some r' /\ same_terms r r'.
Proof.
  revert st r. induction ops as [|o ops IH]; intros st r Hr; simpl.
  - exists r. auto using same_terms_refl.
  - destruct (request_terms_step st o rid r Hr) as (r1 & H1 & S1).
    destruct (IH _ _ H1) as (r2 & H2 & S2).
    exists r2. eauto using same_terms_trans.
Qed.

Lemma request_terms_fixed_witness :
  exists r',
    request_of (run (run empty_db scenario_open) (skipn 4 scenario)) 1
      = Some r' /\
    same_terms (Request.mk 1 1 "2476897412" "IND" "https://a/" 30 "open"
                  "2024-01-01T00:00:01" None None None) r'.
Proof.
  apply (request_terms_fixed (run empty_db scenario_open) (skipn 4 scenario)
           1). reflexivity.
Defined.

(** X11: completed is final: once a request is completed, no sequence of
    calls changes any column of its row (in particular claimed_by,
    claim_proof_url and completed_at stay what the one confirm wrote, and
    nobody is credited for it again). *)
Theorem completed_is_final st ops rid r :
  request_of st rid = Some r -> Request.status r = "completed" ->
  request_of (run st ops) rid = Some r.
Proof.
  revert st. induction ops as [|o ops IH]; intros st Hr Hs; simpl;
    [exact Hr|].
  apply IH; [|exact Hs].
  destruct (request_of_step_row st o rid r Hr)
    as [H|[[E _]|[E _]]]; [exact H| |]; rewrite Hs in E; discriminate E.
Qed.

Lemma completed_is_final_witness :
  let st := run empty_db scenario in
  request_of (run st [ Claim 2 1; Confirm 2 1 "https://c/" "later";
                       Claim 1 1; AdminAddPoints 2 5 secret0 ]) 1
  = request_of st 1.
Proof.
  intros st.
  rewrite (completed_is_final st
             [ Claim 2 1; Confirm 2 1 "https://c/" "later";
               Claim 1 1; AdminAddPoints 2 5 secret0 ] 1
             (Request.mk 1 1 "2476897412" "IND" "https://a/" 30 "completed"
                "2024-01-01T00:00:01" (Some 2) (Some "https://b/")
                (Some "2024-01-01T00:00:03"))); reflexivity.
Defined.

(** ** What holds of every request row in every reachable database *)

(** A property of request rows survives a call if the INSERT of
    create_request establishes it and the two UPDATEs keep it on the one row
    they touch. *)
Lemma requests_step_forall (P : Request.row -> Prop) st o :
  wf st ->
  Forall P (requests st) ->
  (forall owner uid region proof p now,
     In owner (map User.id (users st)) -> 1 <= p <= 100 ->
     P (Request.mk (next_id (map Request.id (requests st))) owner uid
          (upper region) proof p "open" now None None None)) ->
  (forall r c,
     In r (requests st) -> P r -> Request.status r = "open" ->
     In c (users st) -> User.id c <> Request.owner_id r ->
     P (Request.set_claimed (User.id c) r)) ->
  (forall r p n,
     In r (requests st) -> P r -> Request.status r = "claimed" ->
     P (Request.set_completed p n r)) ->
  Forall P (requests (step st o)).
Proof.
  intros (_ & _ & Hnd) H Hnew Hclaim Hdone.
  step_cases o; try exact H; cbn [requests users].
  - apply Forall_app. split; [exact H|]. constructor; [|constructor].
    apply Hnew.
    + apply in_map. now apply user_of_in in Heqo.
    + apply andb_true_iff in Heqb as [H1 H2]. lia.
  - apply Forall_map. rewrite Forall_forall in *. intros x Hx.
    unfold claim_row. destruct (Request.id x =? Request.id r) eqn:E; [|auto].
    apply Z.eqb_eq in E. apply request_of_in in Heqo as [Hr _].
    assert (x = r) by (eapply (NoDup_key_inj Request.id); eauto). subst x.
    apply Hclaim; auto.
    + now apply negb_false_iff, String.eqb_eq in Heqb.
    + now apply user_of_in in Heqo0.
    + now apply Z.eqb_neq.
  - apply Forall_map. rewrite Forall_forall in *. intros x Hx.
    unfold complete_row.
    destruct (Request.id x =? Request.id r) eqn:E; [|auto].
    apply Z.eqb_eq in E. apply request_of_in in Heqo as [Hr _].
    assert (x = r) by (eapply (NoDup_key_inj Request.id); eauto). subst x.
    apply Hdone; auto.
    now apply negb_false_iff, String.eqb_eq in Heqb.
Qed.

Lemma user_ids_step st o i :
  In i (map User.id (users st)) -> In i (map User.id (users (step st o))).
Proof.
  intros H. step_cases o; try exact H; cbn [users];
    rewrite ?map_app, ?(map_key_update User.id)
      by auto using credit_id_id, credit_tg_id; auto.
  apply in_or_app. now left.
Qed.

Lemma request_shape_step st o :
  wf st -> Forall request_shape (requests st) ->
  Forall request_shape (requests (step st o)).
Proof.
  intros Hwf H. apply requests_step_forall; auto.
  - intros. unfold request_shape; cbn.
    repeat split; auto; discriminate.
  - intros r c _ (Ho & _ & _) Hs _ _. destruct (Ho Hs) as (_ & Hp & Hc).
    unfold request_shape; cbn. repeat split; auto; discriminate.
  - intros r p n _ (_ & Hc & _) Hs. destruct (Hc Hs) as (Hby & _ & _).
    unfold request_shape; cbn. repeat split; auto; discriminate.
Qed.

Lemma request_linked_step st o :
  wf st -> Forall (request_linked st) (requests st) ->
  Forall (request_linked (step st o)) (requests (step st o)).
Proof.
  intros Hwf H. apply requests_step_forall; auto.
  - eapply Forall_impl; [|exact H]. intros r [Ho Hc]. split.
    + now apply user_ids_step.
    + intros c Hby. destruct (Hc c Hby). split; [now apply user_ids_step|auto].
  - intros. split; cbn; [now apply user_ids_step|discriminate].
  - intros r c _ [Ho _] _ Hc Hne. split; cbn; [exact Ho|].
    intros c' Hby. injection Hby as <-. split; [|exact Hne].
    apply user_ids_step. now apply in_map.
Qed.

Lemma region_upper_step st o :
  ascii_region o = true ->
  Forall (fun r => is_ascii (Request.region r) = true /\
                   no_small_letter (Request.region r) = true) (requests st) ->
  Forall (fun r => is_ascii (Request.region r) = true /\
                   no_small_letter (Request.region r) = true)
         (requests (step st o)).
Proof.
  intros Ha H. step_cases o; try exact H; cbn [requests].
  - apply Forall_app. split; [exact H|]. constructor; [|constructor].
    cbn. cbn in Ha. split; [now apply is_ascii_upper|].
    apply no_small_letter_upper.
  - apply Forall_map. eapply Forall_impl; [|exact H]. intros x Hx.
    unfold claim_row. destruct (Request.id x =? _); exact Hx.
  - apply Forall_map. eapply Forall_impl; [|exact H]. intros x Hx.
    unfold complete_row. destruct (Request.id x =? _); exact Hx.
Qed.

(** X12: in every reachable database the nullable columns of a request
    follow its status: open means claimed_by, claim_proof_url and
    completed_at are all NULL; claimed means claimed_by is set and the other
    two are NULL; completed means all three are set. *)
Theorem nullable_columns_follow_status st :
  reachable st -> Forall request_shape (requests st).
Proof.
  induction 1 as [|st o Hreach IH]; [constructor|].
  apply request_shape_step; [now apply reachable_wf|exact IH].
Qed.

Lemma nullable_columns_follow_status_witness :
  Forall request_shape (requests (run empty_db scenario)).
Proof.
  apply (nullable_columns_follow_status (run empty_db scenario)).
  apply reachable_run. constructor.
Defined.

(** X13: in every reachable database each request's owner_id is the id of a
    user row, and its claimed_by, when set, is the id of a user row other
    than the owner: the program keeps the references between the two tables
    although the schema declares none, and no request is ever claimed by its
    owner. *)
Theorem requests_reference_users st :
  reachable st -> Forall (request_linked st) (requests st).
Proof.
  induction 1 as [|st o Hreach IH]; [constructor|].
  apply request_linked_step; [now apply reachable_wf|exact IH].
Qed.

Lemma requests_reference_users_witness :
  Forall (request_linked (run empty_db scenario))
         (requests (run empty_db scenario)).
Proof.
  apply (requests_reference_users (run empty_db scenario)).
  apply reachable_run. constructor.
Defined.

(** X14: starting from the empty database, after any sequence of calls
    whose create_request calls all pass an ASCII region, the region of
    every stored request is ASCII and holds no letter a-z, whatever case the
    callers used. *)
Theorem stored_regions_upper_case (ops : list op) :
  ascii_regions ops = true ->
  Forall (fun r => is_ascii (Request.region r) = true /\
                   no_small_letter (Request.region r) = true)
         (requests (run empty_db ops)).
Proof.
  assert (H : forall st,
    ascii_regions ops = true ->
    Forall (fun r => is_ascii (Request.region r) = true /\
                     no_small_letter (Request.region r) = true)
           (requests st) ->
    Forall (fun r => is_ascii (Request.region r) = true /\
                     no_small_letter (Request.region r) = true)
           (requests (run st ops))).
  { induction ops as [|o ops IH]; intros st Ha Hst; simpl; [exact Hst|].
    cbn in Ha. apply andb_true_iff in Ha as [Ho Ha].
    apply IH; [exact Ha|]. now apply region_upper_step. }
  intros Ha. apply H; [exact Ha|constructor].
Qed.

Lemma stored_regions_upper_case_witness :
  ascii_regions scenario = true /\
  Forall (fun r => is_ascii (Request.region r) = true /\
                   no_small_letter (Request.region r) = true)
         (requests (run empty_db scenario)).
Proof.
  split; [reflexivity|].
  apply (stored_regions_upper_case scenario). reflexivity.
Defined.

(** ** Claim, then confirm *)

Lemma request_of_claim_rows us st c i rid :
  request_of (mkdb us (map (claim_row c i) (requests st))) rid
  = option_map (claim_row c i) (request_of st rid).
Proof.
  unfold request_of; cbn [requests].
  apply hd_filter_map. intros; now rewrite claim_row_id.
Qed.

Lemma request_of_complete_rows us st p n i rid :
  request_of (mkdb us (map (complete_row p n i) (requests st))) rid
  = option_map (complete_row p n i) (request_of st rid).
Proof.
  unfold request_of; cbn [requests].
  apply hd_filter_map. intros; now rewrite complete_row_id.
Qed.

(** X15: after a claim that went through, a confirm by the same caller goes
    through as well: it completes the request with the caller's proof and
    time and, when the caller's balance is held as an integer and the sum
    fits 64 bits, pays exactly points_requested to the caller; a confirm by
    any other registered user (the owner included) raises 403 "Only claimer
    can confirm" and changes nothing. *)
Theorem claim_then_confirm st tg rid r c proof now :
  request_of st rid = Some r ->
  Request.status r = "open" ->
  user_of st tg = Some c ->
  User.id c <> Request.owner_id r ->
  let st1 := exec (claim tg rid) st in
  let st2 := exec (confirm tg rid proof now) st1 in
  confirm tg rid proof now st1
    = (Ok "Confirmed. Points awarded to claimer", st2) /\
  (exact_add (User.points_col c) (Request.points_requested r) = true ->
   get_points tg st2
     = (Ok (User.points c + Request.points_requested r), st2)) /\
  request_of st2 rid
    = Some (Request.set_completed proof now
              (Request.set_claimed (User.id c) r)) /\
  (forall tg' c', user_of st tg' = Some c' -> User.id c' <> User.id c ->
     confirm tg' rid proof now st1
       = (Raise (HTTPException 403 "Only claimer can confirm"), st1)).
Proof.
  intros Hr Hst Hc Hne st1 st2. subst st2 st1. unfold exec.
  rewrite claim_eq, Hr, Hst, Hc, String.eqb_refl. cbn [negb].
  replace (User.id c =? Request.owner_id r) with false
    by (symmetry; now apply Z.eqb_neq).
  cbn [snd].
  remember (mkdb (users st)
              (map (claim_row (User.id c) (Request.id r)) (requests st)))
    as st1 eqn:Est1.
  assert (Hr1 : request_of st1 rid
                = Some (Request.set_claimed (User.id c) r)).
  { subst st1. rewrite request_of_claim_rows, Hr. cbn.
    unfold claim_row. now rewrite Z.eqb_refl. }
  assert (Hu1 : forall t, user_of st1 t = user_of st t)
    by (subst st1; reflexivity).
  rewrite confirm_eq, Hr1, Hu1, Hc.
  change (Request.status (Request.set_claimed (User.id c) r)) with "claimed".
  change (Request.claimed_by (Request.set_claimed (User.id c) r))
    with (Some (User.id c)).
  rewrite String.eqb_refl. cbn [negb differs_from].
  rewrite Z.eqb_refl. cbn [negb snd].
  split; [reflexivity|]. split; [|split].
  - intros Hex.
    rewrite get_points_eq, user_of_credit_id, Hu1, Hc. cbn [option_map].
    unfold credit_id. rewrite Z.eqb_refl.
    change (Request.points_requested (Request.set_claimed (User.id c) r))
      with (Request.points_requested r).
    now rewrite points_add_exact.
  - rewrite request_of_complete_rows, Hr1. cbn [option_map].
    unfold complete_row. now rewrite Z.eqb_refl.
  - intros tg' c' Hc' Hdiff. rewrite confirm_eq, Hr1, Hu1, Hc'.
    change (Request.status (Request.set_claimed (User.id c) r))
      with "claimed".
    change (Request.claimed_by (Request.set_claimed (User.id c) r))
      with (Some (User.id c)).
    rewrite String.eqb_refl. cbn [negb differs_from].
    now replace (User.id c' =? User.id c) with false
      by (symmetry; now apply Z.eqb_neq).
Qed.

Lemma claim_then_confirm_witness :
  let st1 := exec (claim 2 1) (run empty_db scenario_open) in
  let st2 := exec (confirm 2 1 "https://b/" "2024-01-01T00:00:03") st1 in
  get_points 2 st2 = (Ok (0 + 30), st2) /\
  confirm 1 1 "https://b/" "2024-01-01T00:00:03" st1
    = (Raise (HTTPException 403 "Only claimer can confirm"), st1).
Proof.
  intros st1 st2.
  destruct (claim_then_confirm (run empty_db scenario_open) 2 1
              (Request.mk 1 1 "2476897412" "IND" "https://a/" 30 "open"
                 "2024-01-01T00:00:01" None None None)
              (User.mk 2 2 "" 0 0 "2024-01-01T00:00:02")
              "https://b/" "2024-01-01T00:00:03")
    as (_ & Hg & _ & Hother); try reflexivity.
  - cbn. lia.
  - split; [now apply Hg|].
    apply (Hother 1 (User.mk 1 1 "A" 20 0 "2024-01-01T00:00:00"));
      [reflexivity|cbn; lia].
Defined.

(** ** Staking twice *)

(** X16: create_request goes through exactly when points is in 1..100 and
    the owner is registered with at least that many points; and since the
    stake leaves the balance at once, a second create_request by the same
    owner right after a first one of [p] goes through exactly when the two
    stakes together fit in the balance the owner had. *)
Theorem stakes_add_up st tg uid region proof p now uid2 region2 proof2 q now2 :
  (raised (create_request tg uid region proof p now) st = false <->
   1 <= p <= 100 /\
   exists u, user_of st tg = Some u /\ p <= User.points u) /\
  (forall u, user_of st tg = Some u -> 1 <= p <= 100 ->
   p <= User.points u -> 1 <= q <= 100 ->
   (raised (create_request tg uid2 region2 proof2 q now2)
           (exec (create_request tg uid region proof p now) st) = false <->
    p + q <= User.points u)).
Proof.
  assert (Hiff : forall s a b c x d,
    raised (create_request tg a b c x d) s = false <->
    1 <= x <= 100 /\ exists u, user_of s tg = Some u /\ x <= User.points u).
  { intros s a b c x d. unfold raised. rewrite create_request_eq.
    destruct ((1 <=? x) && (x <=? 100)) eqn:Hx.
    - apply andb_true_iff in Hx as [H1 H2].
      apply Z.leb_le in H1. apply Z.leb_le in H2.
      destruct (user_of s tg) as [u|]; cbn [fst].
      2:{ split; [destruct (int64 tg); discriminate|].
          intros (_ & ? & ? & _); discriminate. }
      destruct (User.points u <? x) eqn:Hlt; cbn [fst].
      + apply Z.ltb_lt in Hlt. split; [discriminate|].
        intros (_ & v & Hv & Hle). injection Hv as <-. lia.
      + apply Z.ltb_ge in Hlt. split; [|reflexivity].
        intros _. split; [lia|]. exists u. auto.
    - cbn [fst]. split; [discriminate|]. intros (Hr & _).
      apply andb_false_iff in Hx as [Hx|Hx]; apply Z.leb_gt in Hx; lia. }
  split; [apply Hiff|].
  intros u Hu Hp Hle Hq. rewrite Hiff. unfold exec.
  rewrite create_request_eq, Hu.
  replace ((1 <=? p) && (p <=? 100)) with true
    by (symmetry; apply andb_true_iff; split; apply Z.leb_le; lia).
  replace (User.points u <? p) with false
    by (symmetry; apply Z.ltb_ge; lia).
  cbn [snd]. rewrite user_of_credit_id, Hu. cbn [option_map].
  unfold credit_id. rewrite Z.eqb_refl.
  assert (Hleft : q <= User.points (User.add_points (- p) u) <->
                  p + q <= User.points u).
  { unfold User.points in *. cbn [User.add_points User.points_col].
    apply stake_left; try assumption.
    change (2 ^ 52) with 4503599627370496. lia. }
  split.
  - intros (_ & v & Hv & Hv'). injection Hv as <-. now apply Hleft.
  - intros Hsum. split; [lia|]. eexists. split; [reflexivity|].
    now apply Hleft.
Qed.

Lemma stakes_add_up_witness :
  let st := run empty_db (firstn 2 scenario) in
  raised (create_request 1 "u" "ind" "https://a/" 30 "t2")
         (exec (create_request 1 "u" "ind" "https://a/" 30 "t1") st) = false
  <-> 30 + 30 <= 50.
Proof.
  intros st.
  apply (stakes_add_up st 1 "u" "ind" "https://a/" 30 "t1"
           "u" "ind" "https://a/" 30 "t2")
    with (u := User.mk 1 1 "A" 50 0 "2024-01-01T00:00:00");
    try reflexivity; cbn; lia.
Defined.

(** ** The listing across the life of a request *)




(** ** Where points come from *)

Lemma failed_step st o : failed st o = true -> step st o = st.
Proof.
  destruct o; unfold failed, raised, step, exec;
    autorewrite with endpoints; split_inner; cbn [fst snd];
    intros H; try discriminate H; reflexivity.
Qed.

Lemma grant_failed st o : failed st o = true -> grant st o = 0.
Proof.
  intros H. destruct o; try reflexivity. cbn [grant]. now rewrite H.
Qed.

Lemma total_step st o :
  wf st -> failed st o || exact st o = true ->
  total_points (step st o) = total_points st + grant st o.
Proof.
  intros Hwf Hex.
  destruct (failed st o) eqn:Hf.
  { rewrite (failed_step st o Hf), (grant_failed st o Hf). lia. }
  cbn [orb] in Hex.
  destruct o; unfold step, grant.
  - rewrite total_register. lia.
  - unfold exec. rewrite me_eq.
    destruct (user_of st telegram_id); [|destruct (int64 _)]; cbn; lia.
  - rewrite total_create_request by assumption. lia.
  - rewrite total_claim by assumption. lia.
  - rewrite total_confirm by assumption. lia.
  - unfold exec. rewrite get_points_eq.
    destruct (user_of st telegram_id); [|destruct (int64 _)]; cbn; lia.
  - rewrite Hf. unfold failed, raised in Hf.
    rewrite admin_add_points_eq in Hf. cbn [exact] in Hex.
    destruct (secret =? "CHANGE_THIS_SECRET")%string eqn:Es;
      [|discriminate Hf].
    apply String.eqb_eq in Es. subst secret. cbn [negb] in Hf.
    destruct (user_of st telegram_id) as [u|] eqn:Hu;
      [|destruct (int64 telegram_id); discriminate Hf].
    destruct (int64 points) eqn:Hd; [|discriminate Hf].
    apply (total_admin_add_points st telegram_id points u Hwf Hu Hd Hex).
Qed.

(** X18: points enter the system only through admin_add_points: from any
    database under the schema's constraints, after any sequence of calls in
    which every addition asked of SQLite comes out exact (an integer balance
    and a sum within 64 bits), the sum of all balances plus the stakes of the
    open and claimed requests is what it was plus the deltas of the admin
    calls that went through; register, create_request, claim, confirm, me
    and get_points neither make nor lose points. *)
Theorem points_enter_through_admin st ops :
  wf st -> exact_run st ops = true ->
  total_points (run st ops) = total_points st + granted st ops.
Proof.
  revert st. induction ops as [|o ops IH]; intros st Hwf Hex; simpl; [lia|].
  cbn [exact_run] in Hex. apply andb_true_iff in Hex as [Ho Hex].
  rewrite IH by (auto using wf_step). rewrite total_step by assumption. lia.
Qed.

Lemma points_enter_through_admin_witness :
  total_points (run empty_db scenario) = 0 + 50.
Proof.
  apply (points_enter_through_admin empty_db scenario);
    [apply wf_empty|reflexivity].
Defined.

(** ** Constraints of the schema *)

(** X19: for a telegram id that fits 64 bits register never raises, whatever
    the database and the other arguments, and starting from the empty
    database every sequence of calls leaves both PRIMARY KEYs and the UNIQUE
    telegram_id without duplicates: the INSERTs of the program never run
    into a constraint of the schema. *)
Theorem inserts_respect_constraints (ops : list op) :
  wf (run empty_db ops) /\
  forall st tg name now,
    int64 tg = true -> raised (register tg name now) st = false.
Proof.
  split; [apply wf_run, wf_empty|].
  intros st tg name now Hint. unfold raised. rewrite register_eq, Hint.
  destruct (user_of st tg); reflexivity.
Qed.

Lemma inserts_respect_constraints_witness :
  raised (register 7 None "2024-01-02T00:00:00") (run empty_db scenario)
  = false.
Proof.
  apply (inserts_respect_constraints scenario). reflexivity.
Defined.
